(** * Development tasks of a copier-poetry project: the multi-environment runner

    A shallow embedding of [tasks.py]: the resolution of a poetry virtual
    environment from the active one ([get_poetry_venv]), the [setpath]
    context manager, the [python] decorator that runs a task once per Python
    version, and the tasks declared with it. *)

From Stdlib Require Import Ascii String List Bool Lia.
From stdpp Require Import base option gmap strings list.

Local Open Scope string_scope.

(** ** Python strings *)

Module PyStr.

(** [s.endswith(suf)]: some tail of [s] is [suf]. *)
Fixpoint endswith (s suf : string) : bool :=
  if String.eqb s suf then true
  else match s with
       | EmptyString => false
       | String _ r => endswith r suf
       end.

(** [s.split(sep)] for a one-character separator: every occurrence cuts,
    empty pieces are kept, and the result is never empty. *)
Fixpoint split (sep : ascii) (s : string) : list string :=
  match s with
  | EmptyString => [EmptyString]
  | String c r =>
      if Ascii.eqb c sep then EmptyString :: split sep r
      else match split sep r with
           | [] => [String c EmptyString]
           | piece :: pieces => String c piece :: pieces
           end
  end.

(** [l[:-1]]: all but the last element (the empty list stays empty). *)
Definition but_last {A} (l : list A) : list A := removelast l.

(** [sep.join(l)]. *)
Definition join (sep : string) (l : list string) : string :=
  String.concat sep l.

(** [sep in s] for a one-character [sep]. *)
Fixpoint contains (sep : ascii) (s : string) : bool :=
  match s with
  | EmptyString => false
  | String c r => Ascii.eqb c sep || contains sep r
  end.

End PyStr.

(** ** Environment resolution *)

(** Python exceptions the script can meet. [UnexpectedExit] is what
    [context.run] raises for a command that exits with a non-zero status;
    [Failure] stands for any other exception of a task body. *)
Inductive exn : Type :=
| KeyError (key : string)
| AttributeError (attr : string)
| UnexpectedExit (cmd : string)
| Failure (msg : string).

Inductive outcome (A : Type) : Type :=
| Returned (a : A)
| Raised (e : exn).
Arguments Returned {A} a.
Arguments Raised {A} e.

Definition VIRTUAL_ENV : string := "VIRTUAL_ENV".
Definition PATH : string := "PATH".
Definition dash : ascii := "-"%char.

(** [f"py{python_version}"] *)
Definition py_suffix (python_version : string) : string :=
  "py" ++ python_version.

(** The two return statements of [get_poetry_venv], on the value read from
    the environment. *)
Definition resolve_venv (current_venv python_version : string) : string :=
  if PyStr.endswith current_venv (py_suffix python_version) then current_venv
  else PyStr.join "-" (PyStr.but_last (PyStr.split dash current_venv))
         ++ "-py" ++ python_version.

(** [get_poetry_venv]: [os.environ["VIRTUAL_ENV"]] raises [KeyError] when the
    variable is not set. *)
Definition get_poetry_venv (environ : gmap string string)
    (python_version : string) : outcome string :=
  match environ !! VIRTUAL_ENV with
  | None => Raised (KeyError VIRTUAL_ENV)
  | Some current_venv => Returned (resolve_venv current_venv python_version)
  end.

(** ** The process state and the monads of the script *)

(** What a task can touch: [os.environ], the attributes set on the shared
    execution context, and the shell commands handed to [context.run] so far
    (oldest first). *)
Record Store : Type := mkStore {
  environ : gmap string string;
  context : gmap string string;
  ran : list string;
}.

Definition set_environ (f : gmap string string → gmap string string)
    (st : Store) : Store :=
  {| environ := f (environ st); context := context st; ran := ran st |}.

Definition set_context (f : gmap string string → gmap string string)
    (st : Store) : Store :=
  {| environ := environ st; context := f (context st); ran := ran st |}.

Definition set_ran (f : list string → list string) (st : Store) : Store :=
  {| environ := environ st; context := context st; ran := f (ran st) |}.

(** A computation over a state [S] that returns or raises. *)
Definition SE (S A : Type) : Type := S → outcome A * S.

Definition ret {S A} (a : A) : SE S A := fun s => (Returned a, s).

Definition raise {S A} (e : exn) : SE S A := fun s => (Raised e, s).

Definition bind {S A B} (m : SE S A) (k : A → SE S B) : SE S B :=
  fun s =>
    match m s with
    | (Returned a, s') => k a s'
    | (Raised e, s') => (Raised e, s')
    end.

Notation "x <- m ;; k" := (bind m (fun x => k))
  (at level 100, m at next level, right associativity).
Notation "m ;; k" := (bind m (fun _ => k))
  (at level 100, right associativity).

(** An entry of the call log: the function that was entered and the store
    it was entered with. *)
Record Call : Type := mkCall { callee : string; entered : Store }.

(** The interpreter's state: the store, and the log of the calls of observed
    task bodies, oldest first. Task bodies cannot reach the log. *)
Record Machine : Type := mkMachine { store : Store; calls : list Call }.

Definition lift {A} (m : SE Store A) : SE Machine A :=
  fun mc =>
    let '(o, st) := m (store mc) in
    (o, {| store := st; calls := calls mc |}).

(** A Python function taking [context] and further arguments. *)
Definition Callable (Args Value : Type) : Type := Args → SE Machine Value.

(** A task body run as a logged call. *)
Definition observed {Args Value} (name : string)
    (body : Args → SE Store Value) : Callable Args Value :=
  fun args mc =>
    let '(o, st) := body args (store mc) in
    (o, {| store := st;
           calls := calls mc ++ [{| callee := name; entered := store mc |}] |}).

(** [os.environ[key]] *)
Definition getenv (key : string) : SE Store string :=
  fun st =>
    match environ st !! key with
    | Some v => (Returned v, st)
    | None => (Raised (KeyError key), st)
    end.

(** [os.environ[key] = value] *)
Definition setenv (key value : string) : SE Store unit :=
  fun st => (Returned tt, set_environ (insert key value) st).

(** [context.attr] *)
Definition getattr (attr : string) : SE Store string :=
  fun st =>
    match context st !! attr with
    | Some v => (Returned v, st)
    | None => (Raised (AttributeError attr), st)
    end.

(** [context.attr = value] *)
Definition setattr (attr value : string) : SE Store unit :=
  fun st => (Returned tt, set_context (insert attr value) st).

(** [del context.attr] *)
Definition delattr (attr : string) : SE Store unit :=
  fun st =>
    match context st !! attr with
    | Some _ => (Returned tt, set_context (delete attr) st)
    | None => (Raised (AttributeError attr), st)
    end.

(** [for x in l: body(x)] *)
Fixpoint for_each {S A} (l : list A) (body : A → SE S unit) : SE S unit :=
  match l with
  | [] => ret tt
  | x :: rest => body x ;; for_each rest body
  end.

(** A context manager written as a generator with one [yield]: the code
    before the [yield], whose local variables [L] stay alive across it, and
    the code after it. *)
Record ContextManager (L : Type) : Type := mkContextManager {
  before_yield : SE Store L;
  after_yield : L → SE Store unit;
}.
Arguments before_yield {L} _.
Arguments after_yield {L} _.

(** [with cm: block]. When the block raises, [contextlib] throws the
    exception into the generator at its [yield]; a generator without
    [try] lets it through, and the code after the [yield] does not run. *)
Definition with_ {L A} (cm : ContextManager L) (block : SE Machine A)
    : SE Machine A :=
  locals <- lift (before_yield cm) ;;
  a <- block ;;
  lift (after_yield cm locals) ;;
  ret a.

(** ** The script *)

Definition PY_SRC_PATHS : list string := ["src"; "tests"; "tasks.py"].
Definition PY_SRC_LIST : list string := PY_SRC_PATHS.
Definition PY_SRC : string := PyStr.join " " PY_SRC_LIST.
Definition MAIN_PYTHON : string := "3.6".
Definition PYTHON_VERSIONS : list string := ["3.6"; "3.7"; "3.8"; "3.10"].

Definition python_version : string := "python_version".

(** [get_poetry_venv] on the process environment. *)
Definition get_poetry_venv_m (version : string) : SE Store string :=
  fun st => (get_poetry_venv (environ st) version, st).

(** [setpath(path)]: the generator behind the context manager. *)
Definition setpath (path : string) : ContextManager string :=
  {| before_yield :=
       current_path <- getenv PATH ;;
       setenv PATH (path ++ ":" ++ current_path) ;;
       ret current_path;
     after_yield := fun current_path => setenv PATH current_path |}.

(** The argument of [python]: a string or a list of strings. *)
Inductive Versions : Type :=
| VStr (s : string)
| VList (l : list string).

(** [not versions] *)
Definition falsy (versions : Versions) : bool :=
  match versions with
  | VStr s => String.eqb s ""
  | VList l => match l with [] => true | _ => false end
  end.

(** The list iterated over, after [if isinstance(versions, str)]. *)
Definition as_list (versions : Versions) : list string :=
  match versions with
  | VStr s => [s]
  | VList l => l
  end.

Section Runner.

(** [bin_dir venv] is [str(Path(venv) / "bin")]; [PyNone] is Python's
    [None] among the values a task returns. *)
Context {Value : Type} (PyNone : Value) (bin_dir : string → string).

(** One turn of the loop of [wrapped]: an environment-scoped invocation. *)
Definition scoped_invocation {Args} (func : Callable Args Value)
    (args : Args) (version : string) : SE Machine unit :=
  venv <- lift (get_poetry_venv_m version) ;;
  with_ (setpath (bin_dir venv))
    (lift (setattr python_version version) ;;
     func args ;;
     lift (delattr python_version)).

Definition wrapped {Args} (versions : list string)
    (func : Callable Args Value) : Callable Args Value :=
  fun args =>
    for_each versions (scoped_invocation func args) ;;
    ret PyNone.

(** [python(versions)], applied to the decorated function. *)
Definition python {Args} (versions : Versions)
    (func : Callable Args Value) : Callable Args Value :=
  if falsy versions then func
  else wrapped (as_list versions) func.

End Runner.

(** [str(Path(venv) / "bin")] for POSIX paths, used to run the model on
    concrete stores: [pathlib] keeps a leading [/] (two of them when there
    are exactly two), drops empty and [.] components, and joins what is left
    with [/]. *)
Definition posix_root (p : string) : string :=
  match p with
  | String "/" (String "/" (String "/" _)) => "/"
  | String "/" (String "/" _) => "//"
  | String "/" _ => "/"
  | _ => ""
  end.

Definition posix_parts (p : string) : list string :=
  List.filter (fun x => negb (String.eqb x "") && negb (String.eqb x "."))
    (PyStr.split "/" p).

Definition posix_bin_dir (venv : string) : string :=
  posix_root venv ++ PyStr.join "/" (posix_parts venv ++ ["bin"])%list.

(** ** The tasks that go through the runner *)

Section Tasks.

(** [exit_ok cmd] tells whether the shell command [cmd] exits with status 0;
    [failprint title cmd] is the exit code [failprint.cli.run] returns. *)
Context (bin_dir : string → string) (exit_ok : string → bool)
  (failprint : string → list string → nat).

(** [context.run(cmd)]: the command is run, and a non-zero exit status
    raises. *)
Definition run (cmd : string) : SE Store unit :=
  fun st =>
    let st' := set_ran (fun l => (l ++ [cmd])%list) st in
    if exit_ok cmd then (Returned tt, st')
    else (Raised (UnexpectedExit cmd), st').

Definition check_code_quality_func (_ : unit) : SE Store unit :=
  let code :=
    failprint "Checking code quality"
      ("flake8" :: "--config=config/flake8.ini" :: PY_SRC_LIST) in
  run (if Nat.eqb code 0 then "true" else "false").

Definition check_dependencies_func (_ : unit) : SE Store unit :=
  run ("poetry export -f requirements.txt --without-hashes |"
       ++ "failprint --no-pty -t 'Checking dependencies' -- pipx run safety check --stdin --full-report").

Definition check_docs_func (_ : unit) : SE Store unit :=
  run "failprint -t 'Building documentation' -- mkdocs build -s".

Definition check_types_func (_ : unit) : SE Store unit :=
  version <- getattr python_version ;;
  run ("failprint -t 'Type-checking (" ++ version
       ++ ")' -- mypy --config-file config/mypy.ini " ++ PY_SRC).

Definition combine_func (_ : unit) : SE Store unit :=
  run "failprint -t 'Combining coverage data' -- coverage combine --rcfile=config/coverage.ini".

Definition test_func (match_ : string) : SE Store unit :=
  version <- getattr python_version ;;
  run ("failprint -t 'Running tests (" ++ version ++ ")' -- "
       ++ "coverage run --rcfile=config/coverage.ini -m "
       ++ "pytest -c config/pytest.ini -k '" ++ match_ ++ "'").

Definition check_func (_ : unit) : SE Store unit := ret tt.

(** Modelled from the spec: the task object and its sequential runner (§4.2,
    §9) belong to the [invoke] library, which is not part of the script. A
    task is a name, its prerequisites, its body with the arguments of the
    invocation, and its post-tasks. *)
#[local] Unset Elimination Schemes.
Inductive Task : Type :=
  mkTask (task_name : string) (pre : list Task) (body : SE Machine unit)
    (post : list Task).

#[local] Set Elimination Schemes.

Definition task_name (t : Task) : string :=
  match t with mkTask n _ _ _ => n end.

(** Modelled from the spec: the runner of §4.2. The prerequisites are fully
    executed in declared order, then the body, then the post-tasks; the first
    failure aborts what remains and is handed to the invoker. *)
Fixpoint execute (t : Task) : SE Machine unit :=
  match t with
  | mkTask _ pre body post =>
      (fix all (l : list Task) : SE Machine unit :=
         match l with
         | [] => ret tt
         | x :: rest => execute x ;; all rest
         end) pre ;;
      body ;;
      (fix all (l : list Task) : SE Machine unit :=
         match l with
         | [] => ret tt
         | x :: rest => execute x ;; all rest
         end) post
  end.

(** Running a list of tasks one after the other. *)
Definition execute_all (l : list Task) : SE Machine unit :=
  for_each l execute.

(** The declarations of the script: [@invoke.task] with its [pre] tasks as
    positional arguments and its [post] tasks by keyword, over the function
    that the decorators below it produce. *)
Definition check_code_quality : Task :=
  mkTask "check_code_quality" []
    (observed "check_code_quality" check_code_quality_func tt) [].

Definition check_dependencies : Task :=
  mkTask "check_dependencies" []
    (observed "check_dependencies" check_dependencies_func tt) [].

Definition check_docs : Task :=
  mkTask "check_docs" [] (observed "check_docs" check_docs_func tt) [].

Definition check_types : Task :=
  mkTask "check_types" []
    (python tt bin_dir (VList PYTHON_VERSIONS)
       (observed "check_types" check_types_func) tt) [].

Definition check : Task :=
  mkTask "check"
    [check_code_quality; check_types; check_docs; check_dependencies]
    (observed "check" check_func tt) [].

Definition combine : Task :=
  mkTask "combine" [] (observed "combine" combine_func tt) [].

Definition test (match_ : string) : Task :=
  mkTask "test" []
    (python tt bin_dir (VList PYTHON_VERSIONS)
       (observed "test" test_func) match_) [combine].

End Tasks.

(** A process to run the examples on. *)
Definition demo_store : Store :=
  {| environ := {[ VIRTUAL_ENV := "/venvs/proj-a1B2-py3.6";
                   PATH := "/usr/bin:/bin" ]};
     context := ∅;
     ran := [] |}.

Definition demo_machine : Machine := {| store := demo_store; calls := [] |}.

(** A task body that fails. *)
Definition failing_func (_ : unit) : SE Store unit := raise (Failure "boom").

(** ** Vocabulary of the statements *)

(** The store a task body is entered with inside an environment-scoped
    invocation: [path] put in front of the search path, and the identifier
    recorded on the context. *)
Definition scoped_store (path current_path version : string) (st : Store)
    : Store :=
  set_context (insert python_version version)
    (set_environ (insert PATH (path ++ ":" ++ current_path)) st).

(** The store an environment-scoped invocation leaves when its body has
    returned: the identifier removed, the saved search path written back. *)
Definition restored_store (current_path : string) (st : Store) : Store :=
  set_environ (insert PATH current_path)
    (set_context (delete python_version) st).

(** A task body that, entered with the identifier on the context, returns,
    and deletes neither the identifier nor the environment location. *)
Definition well_behaved {Args Value} (body : Args → SE Store Value) : Prop :=
  ∀ args st,
    is_Some (context st !! python_version) →
    ∃ r st',
      body args st = (Returned r, st')
      ∧ is_Some (context st' !! python_version)
      ∧ (is_Some (environ st !! VIRTUAL_ENV) →
         is_Some (environ st' !! VIRTUAL_ENV)).

(** The log entry [c] is a call of [name] made in the scope of the
    identifier [v]: the identifier is on the context, and the tool directory
    of the environment resolved for [v] is in front of the search path
    [current_path]. *)
Definition entered_in_scope (bin_dir : string → string) (name : string)
    (current_path v : string) (c : Call) : Prop :=
  callee c = name
  ∧ context (entered c) !! python_version = Some v
  ∧ ∃ venv,
      environ (entered c) !! VIRTUAL_ENV = Some venv
      ∧ environ (entered c) !! PATH
        = Some (bin_dir (resolve_venv venv v) ++ ":" ++ current_path).

(** ** The tasks that only run commands *)

Section CommandTasks.

Context (exit_ok : string → bool).

Definition clean_func (_ : unit) : SE Store unit :=
  run exit_ok "rm -rf .coverage*" ;;
  run exit_ok "rm -rf .mypy_cache" ;;
  run exit_ok "rm -rf .pytest_cache" ;;
  run exit_ok "rm -rf build" ;;
  run exit_ok "rm -rf dist" ;;
  run exit_ok "rm -rf pip-wheel-metadata" ;;
  run exit_ok "rm -rf site" ;;
  run exit_ok "find . -type d -name __pycache__ | xargs rm -rf" ;;
  run exit_ok "find . -name '*.rej' -delete".

Definition format_func (_ : unit) : SE Store unit :=
  run exit_ok ("failprint -t 'Removing unused imports' -- autoflake -ir --remove-all-unused-imports " ++ PY_SRC) ;;
  run exit_ok ("failprint -t 'Ordering imports' -- isort -y -rc " ++ PY_SRC) ;;
  run exit_ok ("failprint -t 'Formatting code' -- black " ++ PY_SRC).

Definition release_func (version : string) : SE Store unit :=
  run exit_ok ("failprint -t 'Bumping version in pyproject.toml' -- poetry version " ++ version) ;;
  run exit_ok "failprint -t 'Staging files' -- git add pyproject.toml CHANGELOG.md setup.py" ;;
  run exit_ok ("failprint -t 'Committing changes' -- git commit -m 'chore: Prepare release " ++ version ++ "'") ;;
  run exit_ok ("failprint -t 'Tagging commit' -- git tag " ++ version) ;;
  run exit_ok "failprint -t 'Pushing commits' --no-pty -- git push" ;;
  run exit_ok "failprint -t 'Pushing tags' --no-pty -- git push --tags" ;;
  run exit_ok "failprint -t 'Building dist/wheel' -- poetry build" ;;
  run exit_ok "failprint -t 'Publishing version' -- poetry publish" ;;
  run exit_ok "failprint -t 'Deploying docs' -- poetry run mkdocs gh-deploy".

End CommandTasks.

(** ** Vocabulary of the statements about commands *)

(** Of a list of commands run one after the other, those that are started:
    all of them up to and including the first one that fails. *)
Fixpoint attempted (exit_ok : string → bool) (cmds : list string)
    : list string :=
  match cmds with
  | [] => []
  | cmd :: rest =>
      if exit_ok cmd then cmd :: attempted exit_ok rest else [cmd]
  end.

(** How such a list ends: with the exception of the first command that fails,
    if there is one. *)
Fixpoint sequence_outcome (exit_ok : string → bool) (cmds : list string)
    : outcome unit :=
  match cmds with
  | [] => Returned tt
  | cmd :: rest =>
      if exit_ok cmd then sequence_outcome exit_ok rest
      else Raised (UnexpectedExit cmd)
  end.

(** The commands of [release], in the order of the source. *)
Definition release_commands (version : string) : list string :=
  ["failprint -t 'Bumping version in pyproject.toml' -- poetry version " ++ version;
   "failprint -t 'Staging files' -- git add pyproject.toml CHANGELOG.md setup.py";
   "failprint -t 'Committing changes' -- git commit -m 'chore: Prepare release " ++ version ++ "'";
   "failprint -t 'Tagging commit' -- git tag " ++ version;
   "failprint -t 'Pushing commits' --no-pty -- git push";
   "failprint -t 'Pushing tags' --no-pty -- git push --tags";
   "failprint -t 'Building dist/wheel' -- poetry build";
   "failprint -t 'Publishing version' -- poetry publish";
   "failprint -t 'Deploying docs' -- poetry run mkdocs gh-deploy"].

(** The commands of [clean], in the order of the source. *)
Definition clean_commands : list string :=
  ["rm -rf .coverage*"; "rm -rf .mypy_cache"; "rm -rf .pytest_cache";
   "rm -rf build"; "rm -rf dist"; "rm -rf pip-wheel-metadata"; "rm -rf site";
   "find . -type d -name __pycache__ | xargs rm -rf";
   "find . -name '*.rej' -delete"].

(** The command [test] runs for one version and one [match] expression. *)
Definition test_command (match_ version : string) : string :=
  "failprint -t 'Running tests (" ++ version ++ ")' -- "
  ++ "coverage run --rcfile=config/coverage.ini -m "
  ++ "pytest -c config/pytest.ini -k '" ++ match_ ++ "'".

(** A task body that does not write to [os.environ]. *)
Definition leaves_environ {Args Value} (body : Args → SE Store Value) : Prop :=
  ∀ args st o st', body args st = (o, st') → environ st' = environ st.

(** * Properties *)

(** ** Python strings *)

Module PyStrFacts.
Import PyStr.

Lemma endswith_refl (s : string) : endswith s s = true.
Proof. destruct s; cbn [endswith]; now rewrite String.eqb_refl. Qed.

(** [endswith] is the suffix relation. *)
Lemma endswith_spec (s suf : string) :
  endswith s suf = true ↔ ∃ p, s = p ++ suf.
Proof.
  split.
  - induction s as [|a s IH]; cbn [endswith].
    + destruct (String.eqb_spec "" suf) as [<-|]; [|discriminate].
      intros _. now exists "".
    + destruct (String.eqb_spec (String a s) suf) as [<-|_].
      * intros _. now exists "".
      * intros H. destruct (IH H) as [p ->]. now exists (String a p).
  - intros [p ->]. induction p as [|a p IH].
    + apply endswith_refl.
    + change (endswith (String a (p ++ suf)) suf = true). cbn [endswith].
      now destruct (String.eqb (String a (p ++ suf)) suf).
Qed.

Lemma endswith_app (p suf : string) : endswith (p ++ suf) suf = true.
Proof. apply endswith_spec. now exists p. Qed.

Lemma app_cons (x : ascii) (a b : string) :
  String x a ++ b = String x (a ++ b).
Proof. reflexivity. Qed.

Lemma app_nil_l (b : string) : "" ++ b = b.
Proof. reflexivity. Qed.

Lemma app_assoc (a b c : string) : (a ++ b) ++ c = a ++ (b ++ c).
Proof.
  induction a as [|x a IH]; [reflexivity|].
  rewrite !app_cons. now f_equal.
Qed.

Lemma app_length (a b : string) :
  String.length (a ++ b) = String.length a + String.length b.
Proof.
  induction a as [|x a IH]; [reflexivity|].
  rewrite app_cons. simpl. now f_equal.
Qed.

(** Two strings that are equal end with the same character. *)
Lemma snoc_inj (s t : string) (a b : ascii) :
  s ++ String a "" = t ++ String b "" → a = b.
Proof.
  revert t. induction s as [|x s IH]; intros [|y t]; simpl; intros H.
  - now inversion H.
  - inversion H as [[Hx Ht]]. now destruct t.
  - inversion H as [[Hx Hs]]. now destruct s.
  - inversion H as [[Hx Hs]]. now apply (IH t).
Qed.

Lemma endswith_last (s t : string) (a b : ascii) :
  a ≠ b → endswith (s ++ String a "") (t ++ String b "") = false.
Proof.
  intros Hab. destruct (endswith _ _) eqn:E; [|reflexivity].
  apply endswith_spec in E as [p E]. rewrite <- app_assoc in E.
  now apply snoc_inj in E.
Qed.

Lemma split_not_nil (sep : ascii) (s : string) : split sep s ≠ [].
Proof.
  destruct s as [|c r]; simpl; [discriminate|].
  destruct (Ascii.eqb c sep); [discriminate|].
  now destruct (split sep r).
Qed.

(** A separator cuts the list of pieces in two. *)
Lemma split_app (sep : ascii) (p t : string) :
  split sep (p ++ String sep t) = (split sep p ++ split sep t)%list.
Proof.
  induction p as [|c p IH]; simpl.
  - now rewrite Ascii.eqb_refl.
  - destruct (Ascii.eqb c sep); rewrite IH; [reflexivity|].
    pose proof (split_not_nil sep p). now destruct (split sep p).
Qed.

Lemma split_without (sep : ascii) (t : string) :
  contains sep t = false → split sep t = [t].
Proof.
  induction t as [|c t IH]; simpl; [reflexivity|].
  intros H. apply orb_false_elim in H as [-> H]. now rewrite (IH H).
Qed.

(** Joining the pieces with the separator gives the string back. *)
Lemma join_split (sep : ascii) (s : string) :
  join (String sep "") (split sep s) = s.
Proof.
  unfold join. induction s as [|c r IH]; simpl; [reflexivity|].
  pose proof (split_not_nil sep r) as Hne.
  destruct (Ascii.eqb_spec c sep) as [->|_].
  - destruct (split sep r); [contradiction|]. simpl in *. now rewrite IH.
  - destruct (split sep r) as [|piece pieces]; [contradiction|].
    simpl in *. destruct pieces; simpl in *; now rewrite <- IH.
Qed.

(** Cutting at the last separator: what [split], [[:-1]] and [join] do
    together. *)
Lemma join_but_last_split (sep : ascii) (p t : string) :
  contains sep t = false →
  join (String sep "") (but_last (split sep (p ++ String sep t))) = p.
Proof.
  intros H. rewrite split_app, (split_without _ _ H). unfold but_last.
  rewrite removelast_last. apply join_split.
Qed.

End PyStrFacts.

(** ** Environment resolution *)

Section Resolution.
Import PyStr PyStrFacts.

Lemma resolve_venv_keep (current_venv version : string) :
  endswith current_venv (py_suffix version) = true →
  resolve_venv current_venv version = current_venv.
Proof. unfold resolve_venv. now intros ->. Qed.

Lemma resolve_venv_cut (p t version : string) :
  contains dash t = false →
  endswith (p ++ String dash t) (py_suffix version) = false →
  resolve_venv (p ++ String dash t) version = p ++ "-py" ++ version.
Proof.
  intros Ht He. unfold resolve_venv. rewrite He.
  pose proof (join_but_last_split dash p t Ht) as Hj.
  unfold dash in *. now rewrite Hj.
Qed.

Lemma resolve_venv_endswith (current_venv version : string) :
  endswith (resolve_venv current_venv version) (py_suffix version) = true.
Proof.
  unfold resolve_venv.
  destruct (endswith current_venv (py_suffix version)) eqn:E; [exact E|].
  apply endswith_spec.
  exists (join "-" (but_last (split dash current_venv)) ++ "-").
  now rewrite app_assoc.
Qed.

End Resolution.

Section ResolutionClaims.
Import PyStr PyStrFacts.

(** C8. No-op case: when the active environment path already ends with the
    suffix of the requested identifier, ["py"] followed by the identifier,
    resolution returns that path unmodified. *)
Theorem get_poetry_venv_noop (environ : gmap string string)
    (current_venv X : string) :
  environ !! VIRTUAL_ENV = Some current_venv →
  (∃ p, current_venv = p ++ "py" ++ X) →
  get_poetry_venv environ X = Returned current_venv.
Proof.
  intros Henv Hsuf. unfold get_poetry_venv. rewrite Henv. f_equal.
  apply resolve_venv_keep, endswith_spec. exact Hsuf.
Qed.

Lemma get_poetry_venv_noop_witness :
  let environ : gmap string string :=
    {[ VIRTUAL_ENV := "/venvs/proj-a1B2-py3.8" ]} in
  environ !! VIRTUAL_ENV = Some "/venvs/proj-a1B2-py3.8"
  ∧ get_poetry_venv environ "3.8" = Returned "/venvs/proj-a1B2-py3.8".
Proof.
  split; [reflexivity|].
  apply (get_poetry_venv_noop _ "/venvs/proj-a1B2-py3.8" "3.8").
  - reflexivity.
  - exists "/venvs/proj-a1B2-". reflexivity.
Defined.

(** C7, as the spec words it: any path ending in ["py3.6"] would keep what
    precedes that suffix. It fails when the last ["-"] of the path is not
    the one in front of the suffix: all of ["/venvs/mypy3.6"] is cut. *)
Lemma get_poetry_venv_substitution_counterexample :
  let environ : gmap string string := {[ VIRTUAL_ENV := "/venvs/mypy3.6" ]} in
  environ !! VIRTUAL_ENV = Some ("/venvs/my" ++ "py3.6")
  ∧ get_poetry_venv environ "3.10" = Returned "-py3.10"
  ∧ get_poetry_venv environ "3.10" ≠ Returned ("/venvs/my" ++ "py3.10").
Proof.
  split; [reflexivity|]. split; [reflexivity|].
  intros H. vm_compute in H. discriminate H.
Qed.

(** C7, amended. Substitution case: for an active environment path ending
    in ["-py3.6"], the separator included, requesting ["3.10"] yields the
    same path with ["-py3.10"] in place of ["-py3.6"]: everything before the
    separator is unchanged. *)
Theorem get_poetry_venv_substitution (environ : gmap string string)
    (prefix : string) :
  environ !! VIRTUAL_ENV = Some (prefix ++ "-py3.6") →
  get_poetry_venv environ "3.10" = Returned (prefix ++ "-py3.10").
Proof.
  intros Henv. unfold get_poetry_venv. rewrite Henv. f_equal.
  apply (resolve_venv_cut prefix "py3.6" "3.10"); [reflexivity|].
  change (prefix ++ String dash "py3.6")
    with (prefix ++ ("-py3." ++ String "6" "")).
  rewrite <- app_assoc.
  now apply (endswith_last (prefix ++ "-py3.") "py3.1" "6" "0").
Qed.

Lemma get_poetry_venv_substitution_witness :
  let environ : gmap string string :=
    {[ VIRTUAL_ENV := "/venvs/proj-a1B2-py3.6" ]} in
  environ !! VIRTUAL_ENV = Some ("/venvs/proj-a1B2" ++ "-py3.6")
  ∧ get_poetry_venv environ "3.10" = Returned "/venvs/proj-a1B2-py3.10".
Proof.
  split; [reflexivity|].
  apply (get_poetry_venv_substitution _ "/venvs/proj-a1B2"). reflexivity.
Defined.

(** C10. Whatever the active environment path and the identifier [v], the
    resolved path ends with ["py"] followed by [v]; so resolving [v] again
    from the resolved path takes the no-op branch and returns it unchanged. *)
Theorem get_poetry_venv_idempotent (environ : gmap string string)
    (current_venv v : string) :
  environ !! VIRTUAL_ENV = Some current_venv →
  ∃ resolved,
    get_poetry_venv environ v = Returned resolved
    ∧ (∃ p, resolved = p ++ "py" ++ v)
    ∧ endswith resolved (py_suffix v) = true
    ∧ get_poetry_venv (<[VIRTUAL_ENV := resolved]> environ) v
      = Returned resolved.
Proof.
  intros Henv. exists (resolve_venv current_venv v).
  pose proof (resolve_venv_endswith current_venv v) as He.
  repeat split.
  - unfold get_poetry_venv. now rewrite Henv.
  - now apply endswith_spec.
  - exact He.
  - unfold get_poetry_venv. rewrite lookup_insert_eq. f_equal.
    now apply resolve_venv_keep.
Qed.

Lemma get_poetry_venv_idempotent_witness :
  let environ : gmap string string :=
    {[ VIRTUAL_ENV := "/home/u/my-proj/.venv" ]} in
  ∃ resolved,
    get_poetry_venv environ "3.7" = Returned resolved
    ∧ (∃ p, resolved = p ++ "py" ++ "3.7")
    ∧ endswith resolved (py_suffix "3.7") = true
    ∧ get_poetry_venv (<[VIRTUAL_ENV := resolved]> environ) "3.7"
      = Returned resolved.
Proof.
  apply (get_poetry_venv_idempotent _ "/home/u/my-proj/.venv" "3.7").
  reflexivity.
Defined.

End ResolutionClaims.

(** ** The monad and the loop *)

Lemma machine_eta (mc : Machine) :
  {| store := store mc; calls := calls mc |} = mc.
Proof. now destruct mc. Qed.

Lemma bind_returned {S A B} (m : SE S A) (k : A → SE S B) (s s' : S) (a : A) :
  m s = (Returned a, s') → bind m k s = k a s'.
Proof. unfold bind. now intros ->. Qed.

Lemma bind_raised {S A B} (m : SE S A) (k : A → SE S B) (s s' : S)
    (e : exn) :
  m s = (Raised e, s') → bind m k s = (Raised e, s').
Proof. unfold bind. now intros ->. Qed.

Lemma for_each_cons {S A} (x : A) (rest : list A) (body : A → SE S unit)
    (s : S) :
  for_each (x :: rest) body s
  = match body x s with
    | (Returned _, s') => for_each rest body s'
    | (Raised e, s') => (Raised e, s')
    end.
Proof. reflexivity. Qed.

(** ** The runner *)

Section RunnerFacts.

Context {Value : Type} (PyNone : Value) (bin_dir : string → string).

(** What one environment-scoped invocation does when both variables are
    set. *)
Lemma scoped_invocation_run {Args} (func : Callable Args Value) (args : Args)
    (v : string) (mc : Machine) (venv p0 : string) :
  environ (store mc) !! VIRTUAL_ENV = Some venv →
  environ (store mc) !! PATH = Some p0 →
  scoped_invocation bin_dir func args v mc
  = match func args
            {| store := scoped_store (bin_dir (resolve_venv venv v)) p0 v
                          (store mc);
               calls := calls mc |} with
    | (Raised e, mc2) => (Raised e, mc2)
    | (Returned _, mc2) =>
        match context (store mc2) !! python_version with
        | None => (Raised (AttributeError python_version), mc2)
        | Some _ =>
            (Returned tt,
             {| store := restored_store p0 (store mc2); calls := calls mc2 |})
        end
    end.
Proof.
  intros Hvenv Hpath.
  cbv [scoped_invocation with_ bind lift get_poetry_venv_m get_poetry_venv
       setpath getenv setenv setattr delattr ret before_yield after_yield].
  rewrite Hvenv; simpl. rewrite Hpath; simpl.
  unfold scoped_store, restored_store.
  destruct (func args _) as [[r|e] mc2]; [|reflexivity].
  destruct (context (store mc2) !! python_version); simpl;
    [reflexivity | now rewrite machine_eta].
Qed.

Lemma scoped_invocation_no_venv {Args} (func : Callable Args Value)
    (args : Args) (v : string) (mc : Machine) :
  environ (store mc) !! VIRTUAL_ENV = None →
  scoped_invocation bin_dir func args v mc = (Raised (KeyError VIRTUAL_ENV), mc).
Proof.
  intros Hvenv.
  cbv [scoped_invocation bind lift get_poetry_venv_m get_poetry_venv].
  rewrite Hvenv. now rewrite machine_eta.
Qed.

Lemma scoped_invocation_no_path {Args} (func : Callable Args Value)
    (args : Args) (v : string) (mc : Machine) (venv : string) :
  environ (store mc) !! VIRTUAL_ENV = Some venv →
  environ (store mc) !! PATH = None →
  scoped_invocation bin_dir func args v mc = (Raised (KeyError PATH), mc).
Proof.
  intros Hvenv Hpath.
  cbv [scoped_invocation with_ bind lift get_poetry_venv_m get_poetry_venv
       setpath getenv before_yield].
  rewrite Hvenv; simpl. rewrite Hpath. now rewrite machine_eta.
Qed.

End RunnerFacts.

Lemma PATH_ne_VIRTUAL_ENV : PATH ≠ VIRTUAL_ENV.
Proof. unfold PATH, VIRTUAL_ENV. discriminate. Qed.

Lemma prepend_ne (path current_path : string) :
  path ++ ":" ++ current_path ≠ current_path.
Proof.
  intros H. apply (f_equal String.length) in H.
  rewrite !PyStrFacts.app_length in H. simpl in H. lia.
Qed.

Section RunnerClaims.

Context {Value : Type} (PyNone : Value) (bin_dir : string → string).

Lemma wrapped_cons_raised {Args} (func : Callable Args Value) (args : Args)
    (v : string) (rest : list string) (mc mc' : Machine) (e : exn) :
  scoped_invocation bin_dir func args v mc = (Raised e, mc') →
  wrapped PyNone bin_dir (v :: rest) func args mc = (Raised e, mc').
Proof.
  intros H. unfold wrapped. apply bind_raised.
  rewrite for_each_cons. now rewrite H.
Qed.

Lemma wrapped_cons_returned {Args} (func : Callable Args Value) (args : Args)
    (v : string) (rest : list string) (mc mc' : Machine) :
  scoped_invocation bin_dir func args v mc = (Returned tt, mc') →
  wrapped PyNone bin_dir (v :: rest) func args mc
  = wrapped PyNone bin_dir rest func args mc'.
Proof.
  intros H. unfold wrapped, bind. rewrite for_each_cons. now rewrite H.
Qed.

(** C2. An environment-scoped invocation that completes normally leaves the
    search path exactly as it found it. *)
Theorem scoped_invocation_restores_path {Args} (func : Callable Args Value)
    (args : Args) (v : string) (mc mc' : Machine) :
  scoped_invocation bin_dir func args v mc = (Returned tt, mc') →
  environ (store mc') !! PATH = environ (store mc) !! PATH.
Proof.
  destruct (environ (store mc) !! VIRTUAL_ENV) as [venv|] eqn:Hvenv;
    [|now rewrite scoped_invocation_no_venv].
  destruct (environ (store mc) !! PATH) as [p0|] eqn:Hpath;
    [|now rewrite (scoped_invocation_no_path _ _ _ _ _ venv)].
  rewrite (scoped_invocation_run _ _ _ _ _ venv p0 Hvenv Hpath).
  destruct (func args _) as [[r|e] mc2]; [|discriminate].
  destruct (context (store mc2) !! python_version); [|discriminate].
  intros [= <-]. simpl. apply lookup_insert_eq.
Qed.

(** C3. When the body raises in an environment-scoped invocation, the
    exception leaves the invocation and the loop at once with the store as
    the body left it: the search path still starts with the tool directory
    of the environment, and is not the original one. *)
Theorem scoped_invocation_leaks_path {Args} (func : Callable Args Value)
    (args : Args) (v : string) (rest : list string) (mc mc_b : Machine)
    (venv p0 : string) (e : exn) :
  let scoped :=
    scoped_store (bin_dir (resolve_venv venv v)) p0 v (store mc) in
  environ (store mc) !! VIRTUAL_ENV = Some venv →
  environ (store mc) !! PATH = Some p0 →
  func args {| store := scoped; calls := calls mc |} = (Raised e, mc_b) →
  environ (store mc_b) !! PATH = environ scoped !! PATH →
  scoped_invocation bin_dir func args v mc = (Raised e, mc_b)
  ∧ wrapped PyNone bin_dir (v :: rest) func args mc = (Raised e, mc_b)
  ∧ environ (store mc_b) !! PATH
    = Some (bin_dir (resolve_venv venv v) ++ ":" ++ p0)
  ∧ environ (store mc_b) !! PATH ≠ environ (store mc) !! PATH.
Proof.
  intros scoped Hvenv Hpath Hbody Hkept.
  assert (Hrun : scoped_invocation bin_dir func args v mc = (Raised e, mc_b)).
  { rewrite (scoped_invocation_run _ _ _ _ _ venv p0 Hvenv Hpath).
    fold scoped. now rewrite Hbody. }
  assert (Hscoped : environ scoped !! PATH
                    = Some (bin_dir (resolve_venv venv v) ++ ":" ++ p0)).
  { unfold scoped, scoped_store. simpl. apply lookup_insert_eq. }
  repeat split.
  - exact Hrun.
  - now apply wrapped_cons_raised.
  - now rewrite Hkept.
  - rewrite Hkept, Hscoped, Hpath. intros [= H]. now apply prepend_ne in H.
Qed.

(** C9. Without [VIRTUAL_ENV] in the environment, resolution raises
    [KeyError] for every identifier; the runner neither catches it nor
    supplies a value: the invocation and the whole run raise it with the
    machine untouched, the body not entered. *)
Theorem get_poetry_venv_missing {Args} (func : Callable Args Value)
    (args : Args) (v : string) (rest : list string) (mc : Machine) :
  environ (store mc) !! VIRTUAL_ENV = None →
  get_poetry_venv (environ (store mc)) v = Raised (KeyError VIRTUAL_ENV)
  ∧ scoped_invocation bin_dir func args v mc
    = (Raised (KeyError VIRTUAL_ENV), mc)
  ∧ wrapped PyNone bin_dir (v :: rest) func args mc
    = (Raised (KeyError VIRTUAL_ENV), mc).
Proof.
  intros Hvenv. repeat split.
  - unfold get_poetry_venv. now rewrite Hvenv.
  - now apply scoped_invocation_no_venv.
  - now apply wrapped_cons_raised, scoped_invocation_no_venv.
Qed.

(** C5. For an empty sequence of identifiers (an empty list, or the empty
    string) the decorator returns the function it was given: calling the
    result is calling the body, once, on the store as it is. *)
Theorem python_empty {Args} (func : Callable Args Value) :
  python PyNone bin_dir (VList []) func = func
  ∧ python PyNone bin_dir (VStr "") func = func
  ∧ ∀ (name : string) (body : Args → SE Store Value) (args : Args)
      (mc : Machine),
      let result :=
        python PyNone bin_dir (VList []) (observed name body) args mc in
      (fst result, store (snd result)) = body args (store mc)
      ∧ calls (snd result)
        = (calls mc ++ [{| callee := name; entered := store mc |}])%list.
Proof.
  split; [reflexivity|]. split; [reflexivity|].
  intros name body args mc result. subst result.
  unfold python, observed; simpl.
  now destruct (body args (store mc)).
Qed.

End RunnerClaims.

Section RunnerLoop.

Context {Value : Type} (PyNone : Value) (bin_dir : string → string).

(** The loop of [wrapped] over a well-behaved body, by induction on the
    identifiers: every turn enters the body once, in scope, and hands the
    next turn a store with the search path restored and the identifier
    removed. *)
Lemma for_each_scoped_invocation {Args} (name : string)
    (body : Args → SE Store Value) (args : Args) (p0 : string) :
  well_behaved body →
  ∀ (versions : list string) (mc : Machine),
    is_Some (environ (store mc) !! VIRTUAL_ENV) →
    environ (store mc) !! PATH = Some p0 →
    ∃ mc' log,
      for_each versions
        (scoped_invocation bin_dir (observed name body) args) mc
      = (Returned tt, mc')
      ∧ calls mc' = (calls mc ++ log)%list
      ∧ Forall2 (entered_in_scope bin_dir name p0) versions log
      ∧ environ (store mc') !! PATH = Some p0
      ∧ (context (store mc) !! python_version = None ∨ versions ≠ [] →
         context (store mc') !! python_version = None).
Proof.
  intros Hwb. induction versions as [|v rest IH]; intros mc Hvenv Hpath.
  - exists mc, []. repeat split.
    + now rewrite app_nil_r.
    + constructor.
    + exact Hpath.
    + now intros [H|H].
  - destruct Hvenv as [venv Hvenv].
    set (scoped := scoped_store (bin_dir (resolve_venv venv v)) p0 v (store mc)).
    destruct (Hwb args scoped) as (r & st' & Hbody & [x Hx] & Hkeep).
    { unfold scoped, scoped_store. simpl. rewrite lookup_insert_eq. eauto. }
    set (c := {| callee := name; entered := scoped |}).
    set (mc1 := {| store := restored_store p0 st';
                   calls := (calls mc ++ [c])%list |}).
    assert (Hturn : scoped_invocation bin_dir (observed name body) args v mc
                    = (Returned tt, mc1)).
    { rewrite (scoped_invocation_run _ _ _ _ _ venv p0 Hvenv Hpath).
      fold scoped. unfold observed. simpl. rewrite Hbody. simpl.
      now rewrite Hx. }
    destruct (IH mc1) as (mc' & log & Hrun & Hcalls & Hlog & Hp & Hctx).
    { unfold mc1, restored_store. simpl.
      rewrite lookup_insert_ne by apply PATH_ne_VIRTUAL_ENV.
      apply Hkeep. unfold scoped, scoped_store. simpl.
      rewrite lookup_insert_ne by apply PATH_ne_VIRTUAL_ENV. eauto. }
    { unfold mc1, restored_store. simpl. apply lookup_insert_eq. }
    exists mc', (c :: log). repeat split.
    + rewrite for_each_cons, Hturn. exact Hrun.
    + rewrite Hcalls. unfold mc1. simpl. now rewrite <- app_assoc.
    + constructor; [|exact Hlog]. unfold entered_in_scope, c, scoped,
        scoped_store. simpl. repeat split.
      * apply lookup_insert_eq.
      * exists venv. split; [|apply lookup_insert_eq].
        now rewrite lookup_insert_ne by apply PATH_ne_VIRTUAL_ENV.
    + exact Hp.
    + intros _. apply Hctx. left. unfold mc1, restored_store. simpl.
      apply lookup_delete_eq.
Qed.

(** C4. For a non-empty sequence of N identifiers and a well-behaved body,
    one call of the decorated task returns [None] after entering the body
    exactly N times, once per identifier, in sequence order; each call finds
    its identifier on the context (and the environment's tool directory in
    front of the search path), and the identifier is gone from the context
    when the task returns. *)
Theorem python_runs_once_per_version {Args} (name : string)
    (body : Args → SE Store Value) (args : Args) (versions : Versions)
    (mc : Machine) (p0 : string) :
  falsy versions = false →
  well_behaved body →
  is_Some (environ (store mc) !! VIRTUAL_ENV) →
  environ (store mc) !! PATH = Some p0 →
  ∃ mc' log,
    python PyNone bin_dir versions (observed name body) args mc
    = (Returned PyNone, mc')
    ∧ calls mc' = (calls mc ++ log)%list
    ∧ length log = length (as_list versions)
    ∧ Forall2 (entered_in_scope bin_dir name p0) (as_list versions) log
    ∧ context (store mc') !! python_version = None
    ∧ environ (store mc') !! PATH = Some p0.
Proof.
  intros Hne Hwb Hvenv Hpath.
  destruct (for_each_scoped_invocation name body args p0 Hwb
              (as_list versions) mc Hvenv Hpath)
    as (mc' & log & Hrun & Hcalls & Hlog & Hp & Hctx).
  exists mc', log. repeat split; try assumption.
  - unfold python. rewrite Hne. unfold wrapped.
    now rewrite (bind_returned _ _ _ _ _ Hrun).
  - symmetry. exact (Forall2_length _ _ _ Hlog).
  - apply Hctx. right. destruct versions as [s|[|? ?]]; simpl in *;
      [discriminate | discriminate | discriminate].
Qed.

End RunnerLoop.

(** ** Witnesses of the runner on a concrete process *)

Lemma check_types_well_behaved (exit_ok : string → bool) :
  (∀ cmd, exit_ok cmd = true) → well_behaved (check_types_func exit_ok).
Proof.
  intros Hok args st [x Hx].
  cbv [check_types_func bind getattr run]. rewrite Hx, Hok.
  eexists _, _. split; [reflexivity|]. simpl. eauto.
Qed.

Lemma scoped_invocation_restores_path_witness :
  let func := observed "check_types" (check_types_func (fun _ => true)) in
  let result := scoped_invocation posix_bin_dir func tt "3.7" demo_machine in
  result = (Returned tt, snd result)
  ∧ environ (store (snd result)) !! PATH = Some "/usr/bin:/bin".
Proof.
  split; [vm_compute; reflexivity|].
  rewrite (scoped_invocation_restores_path posix_bin_dir
             (observed "check_types" (check_types_func (fun _ => true)))
             tt "3.7" demo_machine).
  - reflexivity.
  - vm_compute. reflexivity.
Defined.

Lemma scoped_invocation_leaks_path_witness :
  let func := observed "task" failing_func in
  let mc_b := snd (wrapped tt posix_bin_dir ["3.7"; "3.8"] func tt demo_machine) in
  scoped_invocation posix_bin_dir func tt "3.7" demo_machine
  = (Raised (Failure "boom"), mc_b)
  ∧ wrapped tt posix_bin_dir ["3.7"; "3.8"] func tt demo_machine
    = (Raised (Failure "boom"), mc_b)
  ∧ environ (store mc_b) !! PATH
    = Some (posix_bin_dir (resolve_venv "/venvs/proj-a1B2-py3.6" "3.7")
            ++ ":" ++ "/usr/bin:/bin")
  ∧ environ (store mc_b) !! PATH ≠ environ (store demo_machine) !! PATH.
Proof.
  apply (scoped_invocation_leaks_path tt posix_bin_dir
           (observed "task" failing_func) tt "3.7" ["3.8"] demo_machine _
           "/venvs/proj-a1B2-py3.6" "/usr/bin:/bin" (Failure "boom"));
    vm_compute; reflexivity.
Defined.

Lemma get_poetry_venv_missing_witness :
  let mc := {| store := {| environ := {[ PATH := "/usr/bin" ]};
                           context := ∅; ran := [] |};
               calls := [] |} in
  let func := observed "check_types" (check_types_func (fun _ => true)) in
  get_poetry_venv (environ (store mc)) "3.6" = Raised (KeyError VIRTUAL_ENV)
  ∧ scoped_invocation posix_bin_dir func tt "3.6" mc
    = (Raised (KeyError VIRTUAL_ENV), mc)
  ∧ wrapped tt posix_bin_dir ("3.6" :: ["3.7"; "3.8"; "3.10"]) func tt mc
    = (Raised (KeyError VIRTUAL_ENV), mc).
Proof.
  apply (get_poetry_venv_missing tt posix_bin_dir). reflexivity.
Defined.

Lemma python_runs_once_per_version_witness :
  ∃ mc' log,
    python tt posix_bin_dir (VList PYTHON_VERSIONS)
      (observed "check_types" (check_types_func (fun _ => true))) tt
      demo_machine
    = (Returned tt, mc')
    ∧ calls mc' = (calls demo_machine ++ log)%list
    ∧ length log = length (as_list (VList PYTHON_VERSIONS))
    ∧ Forall2 (entered_in_scope posix_bin_dir "check_types" "/usr/bin:/bin")
        (as_list (VList PYTHON_VERSIONS)) log
    ∧ context (store mc') !! python_version = None
    ∧ environ (store mc') !! PATH = Some "/usr/bin:/bin".
Proof.
  apply (python_runs_once_per_version tt posix_bin_dir "check_types"
           (check_types_func (fun _ => true)) tt (VList PYTHON_VERSIONS)
           demo_machine "/usr/bin:/bin").
  - reflexivity.
  - apply check_types_well_behaved. reflexivity.
  - vm_compute. eauto.
  - reflexivity.
Defined.

(** C1, on the code: the body of [test] fails for Python 3.7. The run stops
    there with the search path of the 3.7 environment still in place, where
    the invariant of the spec asks for the original one. *)
Example wrapped_failure_keeps_scoped_path :
  let exit_ok := fun cmd =>
    negb (String.eqb cmd
            ("failprint -t 'Running tests (3.7)' -- "
             ++ "coverage run --rcfile=config/coverage.ini -m "
             ++ "pytest -c config/pytest.ini -k ''")) in
  let result :=
    python tt posix_bin_dir (VList PYTHON_VERSIONS)
      (observed "test" (test_func exit_ok)) "" demo_machine in
  environ (store demo_machine) !! PATH = Some "/usr/bin:/bin"
  ∧ (∃ cmd, fst result = Raised (UnexpectedExit cmd))
  ∧ map (fun c => context (entered c) !! python_version) (calls (snd result))
    = [Some "3.6"; Some "3.7"]
  ∧ environ (store (snd result)) !! PATH
    = Some "/venvs/proj-a1B2-py3.7/bin:/usr/bin:/bin"
  ∧ context (store (snd result)) !! python_version = Some "3.7".
Proof.
  repeat split; try (vm_compute; reflexivity).
  eexists. vm_compute. reflexivity.
Qed.

(** ** Tasks with prerequisites and post-tasks *)

Section Chain.

(** The runner unfolds, for a task with two prerequisites and one post-task,
    into their sequence. *)
Lemma execute_two_pre_one_post (n : string) (A B C : Task)
    (body : SE Machine unit) (mc : Machine) :
  execute (mkTask n [A; B] body [C]) mc
  = (execute A ;; execute B ;; body ;; execute C) mc.
Proof.
  cbn [execute]. unfold bind, ret.
  destruct (execute A mc) as [[[]|e] mc1]; [|reflexivity].
  destruct (execute B mc1) as [[[]|e] mc2]; [|reflexivity].
  destruct (body mc2) as [[[]|e] mc3]; [|reflexivity].
  now destruct (execute C mc3) as [[[]|e] mc4].
Qed.

(** C6. A task with prerequisites [A; B] and post-task [C], once [A] has
    run: if [B] fails, the invocation fails with the failure of [B] on the
    machine [B] left, so neither the body nor [C] has run; if [B], the body
    and [C] return in turn, each started on the machine its predecessor
    left, the invocation returns on the machine [C] left. *)
Theorem execute_order (n : string) (A B C : Task) (body : SE Machine unit)
    (mc mc1 : Machine) :
  execute A mc = (Returned tt, mc1) →
  (∀ e mc2,
     execute B mc1 = (Raised e, mc2) →
     execute (mkTask n [A; B] body [C]) mc = (Raised e, mc2))
  ∧ (∀ mc2 mc3 mc4,
       execute B mc1 = (Returned tt, mc2) →
       body mc2 = (Returned tt, mc3) →
       execute C mc3 = (Returned tt, mc4) →
       execute (mkTask n [A; B] body [C]) mc = (Returned tt, mc4)).
Proof.
  intros HA. split.
  - intros e mc2 HB. rewrite execute_two_pre_one_post. unfold bind.
    now rewrite HA, HB.
  - intros mc2 mc3 mc4 HB Hbody HC. rewrite execute_two_pre_one_post.
    unfold bind. now rewrite HA, HB, Hbody, HC.
Qed.

End Chain.

Lemma execute_order_witness :
  let ok := fun _ : string => true in
  let docs_fail := fun cmd =>
    negb (String.eqb cmd "failprint -t 'Building documentation' -- mkdocs build -s") in
  let fp := fun (_ : string) (_ : list string) => 0 in
  let A := check_code_quality ok fp in
  let body := observed "task" check_func tt in
  let mc1 := snd (execute A demo_machine) in
  (∀ e mc2,
     execute (check_docs docs_fail) mc1 = (Raised e, mc2) →
     execute (mkTask "task" [A; check_docs docs_fail] body [combine ok])
       demo_machine
     = (Raised e, mc2))
  ∧ (∀ mc2 mc3 mc4,
       execute (check_docs docs_fail) mc1 = (Returned tt, mc2) →
       body mc2 = (Returned tt, mc3) →
       execute (combine ok) mc3 = (Returned tt, mc4) →
       execute (mkTask "task" [A; check_docs docs_fail] body [combine ok])
         demo_machine
       = (Returned tt, mc4)).
Proof.
  apply (execute_order "task"). vm_compute. reflexivity.
Defined.

(** The chain on the script's own tasks: [test] runs its body for the four
    versions, then [combine]. *)
Example execute_test_order :
  let result := execute (test posix_bin_dir (fun _ => true) "") demo_machine in
  fst result = Returned tt
  ∧ map callee (calls (snd result))
    = ["test"; "test"; "test"; "test"; "combine"]
  ∧ map (fun c => context (entered c) !! python_version) (calls (snd result))
    = [Some "3.6"; Some "3.7"; Some "3.8"; Some "3.10"; None]
  ∧ environ (store (snd result)) !! PATH = Some "/usr/bin:/bin".
Proof. repeat split; vm_compute; reflexivity. Qed.

(** [check] runs its four prerequisites in the declared order, then its own
    (empty) body. *)
Example execute_check_order :
  let result :=
    execute (check posix_bin_dir (fun _ => true) (fun _ _ => 0)) demo_machine in
  fst result = Returned tt
  ∧ map callee (calls (snd result))
    = ["check_code_quality"; "check_types"; "check_types"; "check_types";
       "check_types"; "check_docs"; "check_dependencies"; "check"].
Proof. repeat split; vm_compute; reflexivity. Qed.

(** When a prerequisite of [check] fails, here the documentation build, what
    comes after it does not run. *)
Example execute_check_aborts :
  let docs_fail := fun cmd =>
    negb (String.eqb cmd "failprint -t 'Building documentation' -- mkdocs build -s") in
  let result :=
    execute (check posix_bin_dir docs_fail (fun _ _ => 0)) demo_machine in
  fst result
  = Raised (UnexpectedExit "failprint -t 'Building documentation' -- mkdocs build -s")
  ∧ map callee (calls (snd result))
    = ["check_code_quality"; "check_types"; "check_types"; "check_types";
       "check_types"; "check_docs"].
Proof. repeat split; vm_compute; reflexivity. Qed.

(** ** Examples of resolution *)

Example resolve_substitutes :
  resolve_venv "/home/u/.cache/pypoetry/virtualenvs/proj-a1B2-py3.6" "3.10"
  = "/home/u/.cache/pypoetry/virtualenvs/proj-a1B2-py3.10".
Proof. reflexivity. Qed.

Example resolve_keeps :
  resolve_venv "/venvs/proj-a1B2-py3.8" "3.8" = "/venvs/proj-a1B2-py3.8".
Proof. reflexivity. Qed.

Example resolve_in_project_venv :
  resolve_venv "/home/u/my-proj/.venv" "3.7" = "/home/u/my-py3.7".
Proof. reflexivity. Qed.

Example posix_bin_dir_normalises :
  posix_bin_dir "//a/./b//c/" = "//a/b/c/bin"
  ∧ posix_bin_dir "/venvs/proj-a1B2-py3.6" = "/venvs/proj-a1B2-py3.6/bin".
Proof. split; reflexivity. Qed.

(** * Further properties of the script *)

(** ** Resolution on any path *)

Section ResolutionMore.
Import PyStr PyStrFacts.

(** [endswith] only looks at the last characters of the string: a prefix in
    front of a string at least as long as the suffix changes nothing. *)
Lemma suffix_of_tail (p s q suf : string) :
  p ++ s = q ++ suf → (String.length suf ≤ String.length s)%nat → ∃ r, s = r ++ suf.
Proof.
  revert q. induction p as [|a p IH]; intros q H Hlen.
  - now exists q.
  - destruct q as [|b q].
    + rewrite app_nil_l in H. subst suf. rewrite app_cons in Hlen.
      simpl in Hlen. rewrite app_length in Hlen. lia.
    + rewrite !app_cons in H. injection H as _ H. now apply (IH q).
Qed.

Lemma endswith_behind_prefix (p s suf : string) :
  (String.length suf ≤ String.length s)%nat →
  endswith (p ++ s) suf = endswith s suf.
Proof.
  intros Hlen. destruct (endswith s suf) eqn:E.
  - apply endswith_spec in E as [r ->]. apply endswith_spec.
    exists (p ++ r). now rewrite app_assoc.
  - destruct (endswith (p ++ s) suf) eqn:E'; [|reflexivity].
    apply endswith_spec in E' as [q E'].
    destruct (suffix_of_tail p s q suf E' Hlen) as [r Hr].
    assert (endswith s suf = true) by (apply endswith_spec; eauto).
    congruence.
Qed.

(** X1. Only what follows the last ["-"] of the active path is replaced: a path
    [p-t] whose last piece [t] has no ["-"], and which does not already end
    with the suffix of [v], resolves to [p-py<v>]. *)
Theorem get_poetry_venv_cuts_at_last_dash (environ : gmap string string)
    (p t v : string) :
  environ !! VIRTUAL_ENV = Some (p ++ "-" ++ t) →
  contains dash t = false →
  (¬ ∃ q, p ++ "-" ++ t = q ++ "py" ++ v) →
  get_poetry_venv environ v = Returned (p ++ "-py" ++ v).
Proof.
  intros Henv Ht Hno. unfold get_poetry_venv. rewrite Henv. f_equal.
  apply (resolve_venv_cut p t v Ht).
  destruct (endswith _ _) eqn:E; [|reflexivity].
  apply endswith_spec in E. contradiction.
Qed.

Lemma get_poetry_venv_cuts_at_last_dash_witness :
  let environ : gmap string string :=
    {[ VIRTUAL_ENV := "/home/my-user/proj/.venv" ]} in
  get_poetry_venv environ "3.8" = Returned "/home/my-py3.8".
Proof.
  apply (get_poetry_venv_cuts_at_last_dash _ "/home/my" "user/proj/.venv").
  - reflexivity.
  - reflexivity.
  - intros [q Hq]. change ("py" ++ "3.8") with (py_suffix "3.8") in Hq.
    assert (E : endswith ("/home/my" ++ "-" ++ "user/proj/.venv")
                  (py_suffix "3.8") = true)
      by (apply endswith_spec; eauto).
    vm_compute in E. discriminate E.
Defined.

(** X2. An active path without any ["-"] (and not ending with the suffix of [v])
    is dropped whole: the resolved path is just ["-py<v>"]. *)
Theorem get_poetry_venv_without_dash (environ : gmap string string)
    (current_venv v : string) :
  environ !! VIRTUAL_ENV = Some current_venv →
  contains dash current_venv = false →
  (¬ ∃ q, current_venv = q ++ "py" ++ v) →
  get_poetry_venv environ v = Returned ("-py" ++ v).
Proof.
  intros Henv Hdash Hno. unfold get_poetry_venv. rewrite Henv. f_equal.
  unfold resolve_venv.
  destruct (endswith current_venv (py_suffix v)) eqn:E.
  - apply endswith_spec in E. contradiction.
  - now rewrite (split_without dash current_venv Hdash).
Qed.

Lemma get_poetry_venv_without_dash_witness :
  let environ : gmap string string := {[ VIRTUAL_ENV := "/proj/.venv" ]} in
  get_poetry_venv environ "3.7" = Returned "-py3.7".
Proof.
  apply (get_poetry_venv_without_dash _ "/proj/.venv" "3.7").
  - reflexivity.
  - reflexivity.
  - intros [q Hq]. change ("py" ++ "3.7") with (py_suffix "3.7") in Hq.
    assert (E : endswith "/proj/.venv" (py_suffix "3.7") = true)
      by (apply endswith_spec; eauto).
    vm_compute in E. discriminate E.
Defined.

Lemma resolve_venv_between (p s v w : string) :
  s = "-py" ++ v →
  contains dash ("py" ++ v) = false →
  (String.length (py_suffix w) ≤ String.length s)%nat →
  endswith s (py_suffix w) = String.eqb v w →
  resolve_venv (p ++ s) w = p ++ "-py" ++ w.
Proof.
  intros -> Hdash Hlen He. destruct (String.eqb_spec v w) as [->|Hne].
  - apply resolve_venv_keep. rewrite endswith_behind_prefix by exact Hlen.
    exact He.
  - apply (resolve_venv_cut p ("py" ++ v) w Hdash).
    change (p ++ String dash ("py" ++ v)) with (p ++ ("-py" ++ v)).
    now rewrite endswith_behind_prefix by exact Hlen.
Qed.

(** X3. Between the environments of the script: from the poetry environment of
    any version of [PYTHON_VERSIONS], named [<p>-py<v>], resolving any
    version [w] of [PYTHON_VERSIONS] gives [<p>-py<w>]. *)
Theorem get_poetry_venv_between_versions (environ : gmap string string)
    (p v w : string) :
  In v PYTHON_VERSIONS →
  In w PYTHON_VERSIONS →
  environ !! VIRTUAL_ENV = Some (p ++ "-py" ++ v) →
  get_poetry_venv environ w = Returned (p ++ "-py" ++ w).
Proof.
  intros Hv Hw Henv. unfold get_poetry_venv. rewrite Henv. f_equal.
  unfold PYTHON_VERSIONS in Hv, Hw. simpl in Hv, Hw.
  destruct Hv as [<-|[<-|[<-|[<-|[]]]]];
    destruct Hw as [<-|[<-|[<-|[<-|[]]]]];
    (apply (resolve_venv_between p _ _ _ eq_refl);
     [reflexivity | vm_compute; lia | reflexivity]).
Qed.

Lemma get_poetry_venv_between_versions_witness :
  let environ : gmap string string :=
    {[ VIRTUAL_ENV := "/venvs/proj-a1B2-py3.10" ]} in
  get_poetry_venv environ "3.7" = Returned ("/venvs/proj-a1B2" ++ "-py" ++ "3.7").
Proof.
  apply (get_poetry_venv_between_versions _ "/venvs/proj-a1B2" "3.10" "3.7").
  - simpl. tauto.
  - simpl. tauto.
  - reflexivity.
Defined.

End ResolutionMore.

(** ** The context manager on any block *)

Section SetpathMore.

(** What [with setpath(path): block] does when [PATH] is set. *)
Lemma with_setpath_run {A} (path : string) (block : SE Machine A)
    (mc : Machine) (p0 : string) :
  environ (store mc) !! PATH = Some p0 →
  with_ (setpath path) block mc
  = match block {| store := set_environ (insert PATH (path ++ ":" ++ p0))
                              (store mc);
                   calls := calls mc |} with
    | (Raised e, mc2) => (Raised e, mc2)
    | (Returned a, mc2) =>
        (Returned a,
         {| store := set_environ (insert PATH p0) (store mc2);
            calls := calls mc2 |})
    end.
Proof.
  intros Hpath.
  cbv [with_ bind lift setpath getenv setenv ret before_yield after_yield].
  rewrite Hpath; simpl. now destruct (block _) as [[a|e] mc2].
Qed.

(** X4. Without [PATH] in the environment, entering the context manager raises
    [KeyError]: the block is not run and nothing is written. *)
Theorem setpath_without_path {A} (path : string) (block : SE Machine A)
    (mc : Machine) :
  environ (store mc) !! PATH = None →
  with_ (setpath path) block mc = (Raised (KeyError PATH), mc).
Proof.
  intros Hpath. cbv [with_ bind lift setpath getenv before_yield].
  rewrite Hpath. now rewrite machine_eta.
Qed.

Lemma setpath_without_path_witness :
  let mc := {| store := {| environ := {[ VIRTUAL_ENV := "/venvs/p-py3.6" ]};
                           context := ∅; ran := [] |};
               calls := [] |} in
  with_ (setpath "/venvs/p-py3.6/bin")
    (observed "check_docs" (check_docs_func (fun _ => true)) tt) mc
  = (Raised (KeyError PATH), mc).
Proof. apply setpath_without_path. reflexivity. Defined.

(** X5. On the way out of a block that returned, the context manager writes the
    saved search path back and nothing else: the block's value is passed on,
    a value the block gave to [PATH] is overwritten, and every other
    variable, the context, the commands run and the call log are as the
    block left them. *)
Theorem setpath_exit_writes_path_only {A} (path : string)
    (block : SE Machine A) (mc mc2 : Machine) (p0 : string) (a : A) :
  environ (store mc) !! PATH = Some p0 →
  block {| store := set_environ (insert PATH (path ++ ":" ++ p0)) (store mc);
           calls := calls mc |}
  = (Returned a, mc2) →
  ∃ mc',
    with_ (setpath path) block mc = (Returned a, mc')
    ∧ environ (store mc') !! PATH = Some p0
    ∧ (∀ key, key ≠ PATH →
         environ (store mc') !! key = environ (store mc2) !! key)
    ∧ context (store mc') = context (store mc2)
    ∧ ran (store mc') = ran (store mc2)
    ∧ calls mc' = calls mc2.
Proof.
  intros Hpath Hblock. eexists. split.
  - rewrite (with_setpath_run _ _ _ _ Hpath), Hblock. reflexivity.
  - simpl. repeat split.
    + apply lookup_insert_eq.
    + intros key Hkey. now apply lookup_insert_ne.
Qed.

Lemma setpath_exit_writes_path_only_witness :
  let block : SE Machine unit :=
    lift (setenv PATH "/tmp" ;; setenv "LANG" "C") in
  ∃ mc',
    with_ (setpath "/venvs/p-py3.7/bin") block demo_machine = (Returned tt, mc')
    ∧ environ (store mc') !! PATH = Some "/usr/bin:/bin"
    ∧ environ (store mc') !! "LANG" = Some "C".
Proof.
  destruct (setpath_exit_writes_path_only "/venvs/p-py3.7/bin"
              (lift (setenv PATH "/tmp" ;; setenv "LANG" "C"))
              demo_machine
              (snd (lift (setenv PATH "/tmp" ;; setenv "LANG" "C")
                      {| store := set_environ
                                    (insert PATH ("/venvs/p-py3.7/bin" ++ ":"
                                                  ++ "/usr/bin:/bin"))
                                    (store demo_machine);
                         calls := calls demo_machine |}))
              "/usr/bin:/bin" tt)
    as (mc' & Hrun & Hpath & Hother & _).
  - reflexivity.
  - reflexivity.
  - exists mc'. split; [exact Hrun|]. split; [exact Hpath|].
    rewrite Hother by discriminate. reflexivity.
Defined.

(** X6. Nested scopes stack and unwind: inside [with setpath(a): with
    setpath(b):] the block finds [b:a:<original>] as search path; when it
    returns, the original search path is back; when it raises, neither level
    restores anything. *)
Theorem setpath_nested {A} (a b : string) (block : SE Machine A)
    (mc : Machine) (p0 : string) :
  environ (store mc) !! PATH = Some p0 →
  with_ (setpath a) (with_ (setpath b) block) mc
  = match block {| store := set_environ
                              (insert PATH (b ++ ":" ++ a ++ ":" ++ p0))
                              (store mc);
                   calls := calls mc |} with
    | (Raised e, mc2) => (Raised e, mc2)
    | (Returned r, mc2) =>
        (Returned r,
         {| store := set_environ (insert PATH p0) (store mc2);
            calls := calls mc2 |})
    end.
Proof.
  intros Hpath. rewrite (with_setpath_run a _ mc p0 Hpath).
  rewrite (with_setpath_run b block _ (a ++ ":" ++ p0))
    by (simpl; apply lookup_insert_eq).
  unfold set_environ; simpl. rewrite insert_insert_eq.
  destruct (block _) as [[r|e] mc2]; [|reflexivity].
  simpl. now rewrite insert_insert_eq.
Qed.

Lemma setpath_nested_witness :
  let block := observed "check_docs" (check_docs_func (fun _ => true)) tt in
  let result := with_ (setpath "/a/bin") (with_ (setpath "/b/bin") block)
                  demo_machine in
  fst result = Returned tt
  ∧ map (fun c => environ (entered c) !! PATH) (calls (snd result))
    = [Some "/b/bin:/a/bin:/usr/bin:/bin"]
  ∧ environ (store (snd result)) !! PATH = Some "/usr/bin:/bin".
Proof.
  cbv zeta.
  rewrite (setpath_nested "/a/bin" "/b/bin"
             (observed "check_docs" (check_docs_func (fun _ => true)) tt)
             demo_machine "/usr/bin:/bin") by reflexivity.
  repeat split; vm_compute; reflexivity.
Defined.

End SetpathMore.

(** ** The decorator on any function *)

Section RunnerMore.

Context {Value : Type} (PyNone : Value) (bin_dir : string → string).

(** A non-empty string is treated as the list of that one identifier. *)
Theorem python_string_is_singleton {Args} (func : Callable Args Value)
    (s : string) :
  s ≠ "" →
  python PyNone bin_dir (VStr s) func = python PyNone bin_dir (VList [s]) func.
Proof.
  intros Hs. unfold python. simpl.
  now destruct (String.eqb_spec s "").
Qed.

Lemma for_each_app {S A} (l1 l2 : list A) (body : A → SE S unit) (s : S) :
  for_each (l1 ++ l2)%list body s
  = match for_each l1 body s with
    | (Returned _, s1) => for_each l2 body s1
    | (Raised e, s1) => (Raised e, s1)
    end.
Proof.
  revert s. induction l1 as [|x l1 IH]; intros s; [reflexivity|].
  rewrite <- app_comm_cons, !for_each_cons.
  destruct (body x s) as [[[]|e] s1]; [apply IH | reflexivity].
Qed.

Lemma wrapped_returned_inv {Args} (func : Callable Args Value) (args : Args)
    (versions : list string) (mc mc' : Machine) (r : Value) :
  wrapped PyNone bin_dir versions func args mc = (Returned r, mc') →
  r = PyNone
  ∧ for_each versions (scoped_invocation bin_dir func args) mc
    = (Returned tt, mc').
Proof.
  unfold wrapped, bind, ret.
  destruct (for_each versions _ mc) as [[[]|e] mc1]; [|discriminate].
  now intros [= <- <-].
Qed.

(** X7. The first invocation that raises ends the run: the versions before it
    have been run, the versions after it are not. *)
Theorem wrapped_stops_at_failure {Args} (func : Callable Args Value)
    (args : Args) (before after : list string) (v : string)
    (mc mc1 mc2 : Machine) (r : Value) (e : exn) :
  wrapped PyNone bin_dir before func args mc = (Returned r, mc1) →
  scoped_invocation bin_dir func args v mc1 = (Raised e, mc2) →
  wrapped PyNone bin_dir (before ++ v :: after) func args mc = (Raised e, mc2).
Proof.
  intros Hbefore Hv. apply wrapped_returned_inv in Hbefore as [_ Hbefore].
  unfold wrapped. apply bind_raised.
  rewrite for_each_app, Hbefore, for_each_cons. now rewrite Hv.
Qed.

(** X8. Without [PATH] in the environment (and with [VIRTUAL_ENV] set), the run
    raises [KeyError] on entering the first scope: the body is not entered
    and the machine is untouched. *)
Theorem wrapped_without_path {Args} (func : Callable Args Value)
    (args : Args) (v : string) (rest : list string) (mc : Machine) :
  is_Some (environ (store mc) !! VIRTUAL_ENV) →
  environ (store mc) !! PATH = None →
  wrapped PyNone bin_dir (v :: rest) func args mc = (Raised (KeyError PATH), mc).
Proof.
  intros [venv Hvenv] Hpath.
  apply wrapped_cons_raised. now apply (scoped_invocation_no_path _ _ _ _ _ venv).
Qed.

(** X9. A body that returns but has removed [python_version] from the context
    makes the [del] after it raise [AttributeError]: the run stops there, and
    the search path is not restored. *)
Theorem wrapped_body_deletes_version {Args} (func : Callable Args Value)
    (args : Args) (v : string) (rest : list string) (mc mc2 : Machine)
    (venv p0 : string) (r : Value) :
  environ (store mc) !! VIRTUAL_ENV = Some venv →
  environ (store mc) !! PATH = Some p0 →
  func args
    {| store := scoped_store (bin_dir (resolve_venv venv v)) p0 v (store mc);
       calls := calls mc |}
  = (Returned r, mc2) →
  context (store mc2) !! python_version = None →
  wrapped PyNone bin_dir (v :: rest) func args mc
  = (Raised (AttributeError python_version), mc2).
Proof.
  intros Hvenv Hpath Hbody Hgone. apply wrapped_cons_raised.
  rewrite (scoped_invocation_run _ _ _ _ _ venv p0 Hvenv Hpath), Hbody.
  now rewrite Hgone.
Qed.

Lemma scoped_invocation_returned_inv {Args} (func : Callable Args Value)
    (args : Args) (v : string) (mc mc' : Machine) :
  scoped_invocation bin_dir func args v mc = (Returned tt, mc') →
  ∃ venv p0 r mc2,
    environ (store mc) !! VIRTUAL_ENV = Some venv
    ∧ environ (store mc) !! PATH = Some p0
    ∧ func args
        {| store := scoped_store (bin_dir (resolve_venv venv v)) p0 v
                      (store mc);
           calls := calls mc |}
      = (Returned r, mc2)
    ∧ mc' = {| store := restored_store p0 (store mc2); calls := calls mc2 |}.
Proof.
  destruct (environ (store mc) !! VIRTUAL_ENV) as [venv|] eqn:Hvenv;
    [|now rewrite scoped_invocation_no_venv].
  destruct (environ (store mc) !! PATH) as [p0|] eqn:Hpath;
    [|now rewrite (scoped_invocation_no_path _ _ _ _ _ venv)].
  rewrite (scoped_invocation_run _ _ _ _ _ venv p0 Hvenv Hpath).
  destruct (func args _) as [[r|e] mc2] eqn:Hbody; [|discriminate].
  destruct (context (store mc2) !! python_version); [|discriminate].
  intros [= <-]. now exists venv, p0, r, mc2.
Qed.

(** X10. When the decorated task returns, whatever the function and the list of
    versions, it returns [None], the search path is the one found on entry,
    and no [python_version] is left on the context if a version was run. *)
Theorem wrapped_returns_none_and_restores {Args} (func : Callable Args Value)
    (args : Args) (versions : list string) (mc mc' : Machine) (r : Value) :
  wrapped PyNone bin_dir versions func args mc = (Returned r, mc') →
  r = PyNone
  ∧ environ (store mc') !! PATH = environ (store mc) !! PATH
  ∧ (versions ≠ [] → context (store mc') !! python_version = None).
Proof.
  intros H. apply wrapped_returned_inv in H as [-> H]. split; [reflexivity|].
  revert mc H. induction versions as [|v rest IH]; intros mc H.
  - injection H as <-. now split.
  - rewrite for_each_cons in H.
    destruct (scoped_invocation bin_dir func args v mc) as [[[]|e] mc1] eqn:E;
      [|discriminate].
    apply scoped_invocation_returned_inv in E
      as (venv & p0 & r & mc2 & Hvenv & Hpath & Hbody & ->).
    destruct (IH _ H) as [Hp Hctx]. split.
    + rewrite Hp, Hpath. simpl. apply lookup_insert_eq.
    + intros _. destruct rest as [|w rest].
      * injection H as <-. simpl. apply lookup_delete_eq.
      * now apply Hctx.
Qed.

End RunnerMore.

Lemma python_string_is_singleton_witness :
  python tt posix_bin_dir (VStr "3.8")
    (observed "check_types" (check_types_func (fun _ => true)))
  = python tt posix_bin_dir (VList ["3.8"])
      (observed "check_types" (check_types_func (fun _ => true))).
Proof. apply python_string_is_singleton. discriminate. Defined.

Lemma wrapped_stops_at_failure_witness :
  let exit_ok := fun cmd => negb (String.eqb cmd (test_command "" "3.7")) in
  let func := observed "test" (test_func exit_ok) in
  let result := wrapped tt posix_bin_dir (["3.6"] ++ "3.7" :: ["3.8"; "3.10"])
                  func "" demo_machine in
  result = (Raised (UnexpectedExit (test_command "" "3.7")), snd result)
  ∧ map (fun c => context (entered c) !! python_version) (calls (snd result))
    = [Some "3.6"; Some "3.7"].
Proof.
  cbv zeta. split; [|vm_compute; reflexivity].
  rewrite (wrapped_stops_at_failure tt posix_bin_dir
             (observed "test"
                (test_func
                   (fun cmd => negb (String.eqb cmd (test_command "" "3.7")))))
             "" ["3.6"] ["3.8"; "3.10"] "3.7" demo_machine
             (snd (wrapped tt posix_bin_dir ["3.6"]
                     (observed "test"
                        (test_func
                           (fun cmd =>
                              negb (String.eqb cmd (test_command "" "3.7")))))
                     "" demo_machine))
             (snd (wrapped tt posix_bin_dir ["3.6"; "3.7"]
                     (observed "test"
                        (test_func
                           (fun cmd =>
                              negb (String.eqb cmd (test_command "" "3.7")))))
                     "" demo_machine))
             tt (UnexpectedExit (test_command "" "3.7"))).
  - reflexivity.
  - vm_compute. reflexivity.
  - vm_compute. reflexivity.
Defined.

Lemma wrapped_without_path_witness :
  let mc := {| store := {| environ := {[ VIRTUAL_ENV := "/venvs/p-py3.6" ]};
                           context := ∅; ran := [] |};
               calls := [] |} in
  wrapped tt posix_bin_dir ("3.6" :: ["3.7"])
    (observed "check_types" (check_types_func (fun _ => true))) tt mc
  = (Raised (KeyError PATH), mc).
Proof.
  apply wrapped_without_path; [vm_compute; eauto | reflexivity].
Defined.

Lemma wrapped_body_deletes_version_witness :
  let func := observed "task" (fun _ : unit => delattr python_version) in
  let result := wrapped tt posix_bin_dir ("3.7" :: ["3.8"]) func tt
                  demo_machine in
  result = (Raised (AttributeError python_version), snd result)
  ∧ environ (store (snd result)) !! PATH
    = Some "/venvs/proj-a1B2-py3.7/bin:/usr/bin:/bin".
Proof.
  cbv zeta. split; [|vm_compute; reflexivity].
  rewrite (wrapped_body_deletes_version tt posix_bin_dir
             (observed "task" (fun _ : unit => delattr python_version))
             tt "3.7" ["3.8"] demo_machine
             (snd (wrapped tt posix_bin_dir ["3.7"]
                     (observed "task" (fun _ : unit => delattr python_version))
                     tt demo_machine))
             "/venvs/proj-a1B2-py3.6" "/usr/bin:/bin" tt);
    vm_compute; reflexivity.
Defined.

Lemma wrapped_returns_none_and_restores_witness :
  let func := observed "check_types" (check_types_func (fun _ => true)) in
  let result := wrapped tt posix_bin_dir PYTHON_VERSIONS func tt demo_machine in
  result = (Returned tt, snd result)
  ∧ environ (store (snd result)) !! PATH = environ (store demo_machine) !! PATH
  ∧ context (store (snd result)) !! python_version = None.
Proof.
  cbv zeta. split; [vm_compute; reflexivity|].
  destruct (wrapped_returns_none_and_restores tt posix_bin_dir
              (observed "check_types" (check_types_func (fun _ => true)))
              tt PYTHON_VERSIONS demo_machine
              (snd (wrapped tt posix_bin_dir PYTHON_VERSIONS
                      (observed "check_types"
                         (check_types_func (fun _ => true)))
                      tt demo_machine))
              tt)
    as (_ & Hp & Hc).
  - vm_compute. reflexivity.
  - split; [exact Hp | apply Hc; discriminate].
Defined.

(** ** The decorator on bodies that leave the environment alone *)

Section RunnerEnviron.

Context {Value : Type} (PyNone : Value) (bin_dir : string → string).

Lemma insert_path_back (env : gmap string string) (p0 scoped : string) :
  env !! PATH = Some p0 → <[PATH := p0]> (<[PATH := scoped]> env) = env.
Proof. intros H. rewrite insert_insert_eq. now apply insert_id. Qed.

(** The loop over a body that returns and does not write to [os.environ]:
    every call finds the environment of the start with only [PATH] changed,
    and every turn gives the environment of the start back. *)
Lemma for_each_scoped_invocation_environ {Args} (name : string)
    (body : Args → SE Store Value) (args : Args) (env : gmap string string)
    (venv p0 : string) :
  well_behaved body →
  leaves_environ body →
  env !! VIRTUAL_ENV = Some venv →
  env !! PATH = Some p0 →
  ∀ (versions : list string) (mc : Machine),
    environ (store mc) = env →
    ∃ mc' log,
      for_each versions
        (scoped_invocation bin_dir (observed name body) args) mc
      = (Returned tt, mc')
      ∧ calls mc' = (calls mc ++ log)%list
      ∧ Forall2
          (fun v c =>
             callee c = name
             ∧ context (entered c) !! python_version = Some v
             ∧ environ (entered c)
               = <[PATH := bin_dir (resolve_venv venv v) ++ ":" ++ p0]> env)
          versions log
      ∧ environ (store mc') = env.
Proof.
  intros Hwb Hle Hvenv Hpath.
  induction versions as [|v rest IH]; intros mc Henv.
  - exists mc, []. repeat split; [now rewrite app_nil_r | constructor | exact Henv].
  - set (scoped := scoped_store (bin_dir (resolve_venv venv v)) p0 v (store mc)).
    destruct (Hwb args scoped) as (r & st' & Hbody & [x Hx] & _).
    { unfold scoped, scoped_store. simpl. rewrite lookup_insert_eq. eauto. }
    pose proof (Hle _ _ _ _ Hbody) as Hsame.
    set (c := {| callee := name; entered := scoped |}).
    set (mc1 := {| store := restored_store p0 st';
                   calls := (calls mc ++ [c])%list |}).
    assert (Hturn : scoped_invocation bin_dir (observed name body) args v mc
                    = (Returned tt, mc1)).
    { rewrite (scoped_invocation_run _ _ _ _ _ venv p0)
        by (rewrite Henv; assumption).
      fold scoped. unfold observed. simpl. rewrite Hbody. simpl.
      now rewrite Hx. }
    destruct (IH mc1) as (mc' & log & Hrun & Hcalls & Hlog & Hfinal).
    { unfold mc1, restored_store. simpl. rewrite Hsame.
      unfold scoped, scoped_store. simpl. rewrite Henv.
      now apply insert_path_back. }
    exists mc', (c :: log). repeat split.
    + rewrite for_each_cons, Hturn. exact Hrun.
    + rewrite Hcalls. unfold mc1. simpl. now rewrite <- app_assoc.
    + constructor; [|exact Hlog]. unfold c, scoped, scoped_store. simpl.
      repeat split; [apply lookup_insert_eq | now rewrite Henv].
    + exact Hfinal.
Qed.

(** X11. For a body that returns and does not write to [os.environ], the runner
    changes [PATH] and nothing else, only for the time of each call: the
    k-th call finds the environment of the start with the tool directory of
    the environment resolved for the k-th version in front of [PATH]
    ([VIRTUAL_ENV] itself still names the active environment), and the task
    returns with the environment of the start. *)
Theorem python_scopes_path_only {Args} (name : string)
    (body : Args → SE Store Value) (args : Args) (versions : Versions)
    (mc : Machine) (venv p0 : string) :
  falsy versions = false →
  well_behaved body →
  leaves_environ body →
  environ (store mc) !! VIRTUAL_ENV = Some venv →
  environ (store mc) !! PATH = Some p0 →
  ∃ mc' log,
    python PyNone bin_dir versions (observed name body) args mc
    = (Returned PyNone, mc')
    ∧ calls mc' = (calls mc ++ log)%list
    ∧ Forall2
        (fun v c =>
           callee c = name
           ∧ context (entered c) !! python_version = Some v
           ∧ environ (entered c)
             = <[PATH := bin_dir (resolve_venv venv v) ++ ":" ++ p0]>
                 (environ (store mc)))
        (as_list versions) log
    ∧ environ (store mc') = environ (store mc).
Proof.
  intros Hne Hwb Hle Hvenv Hpath.
  destruct (for_each_scoped_invocation_environ name body args
              (environ (store mc)) venv p0 Hwb Hle Hvenv Hpath
              (as_list versions) mc eq_refl)
    as (mc' & log & Hrun & Hcalls & Hlog & Hfinal).
  exists mc', log. repeat split; try assumption.
  unfold python. rewrite Hne. unfold wrapped.
  now rewrite (bind_returned _ _ _ _ _ Hrun).
Qed.

(** X12. Two [python] decorators on one function do not compose: the inner one
    removes [python_version] from the context, so the [del] of the outer one
    raises [AttributeError] at the end of its first version, after the inner
    versions have been run once, and the search path of that first outer
    environment stays in place. *)
Theorem python_stacked_raises {Args} (name : string)
    (body : Args → SE Store Value) (args : Args) (outer inner : Versions)
    (mc : Machine) (venv p0 : string) :
  falsy outer = false →
  falsy inner = false →
  well_behaved body →
  environ (store mc) !! VIRTUAL_ENV = Some venv →
  environ (store mc) !! PATH = Some p0 →
  ∃ mc' log first,
    head (as_list outer) = Some first
    ∧ python PyNone bin_dir outer
        (python PyNone bin_dir inner (observed name body)) args mc
      = (Raised (AttributeError python_version), mc')
    ∧ calls mc' = (calls mc ++ log)%list
    ∧ length log = length (as_list inner)
    ∧ environ (store mc') !! PATH
      = Some (bin_dir (resolve_venv venv first) ++ ":" ++ p0).
Proof.
  intros Houter Hinner Hwb Hvenv Hpath.
  destruct (as_list outer) as [|first rest] eqn:Hlist.
  { destruct outer as [s|[|? ?]]; simpl in *; discriminate. }
  set (scoped := {| store := scoped_store (bin_dir (resolve_venv venv first))
                               p0 first (store mc);
                    calls := calls mc |}).
  destruct (for_each_scoped_invocation bin_dir name body args
              (bin_dir (resolve_venv venv first) ++ ":" ++ p0) Hwb
              (as_list inner) scoped)
    as (mc' & log & Hrun & Hcalls & Hlog & Hp & Hctx).
  { unfold scoped, scoped_store. simpl.
    rewrite lookup_insert_ne by apply PATH_ne_VIRTUAL_ENV. eauto. }
  { unfold scoped, scoped_store. simpl. apply lookup_insert_eq. }
  exists mc', log, first. repeat split.
  - unfold python at 1. rewrite Houter, Hlist. apply wrapped_cons_raised.
    rewrite (scoped_invocation_run _ _ _ _ _ venv p0 Hvenv Hpath).
    fold scoped. unfold python. rewrite Hinner. unfold wrapped.
    rewrite (bind_returned _ _ _ _ _ Hrun). unfold ret.
    rewrite Hctx; [reflexivity|]. right.
    destruct inner as [s|[|? ?]]; simpl in *; discriminate.
  - exact Hcalls.
  - symmetry. exact (Forall2_length _ _ _ Hlog).
  - exact Hp.
Qed.

End RunnerEnviron.

(** ** The task bodies *)

Section TaskBodies.

Context (bin_dir : string → string) (exit_ok : string → bool).

Lemma run_leaves_environ (cmd : string) (st : Store) :
  environ (snd (run exit_ok cmd st)) = environ st
  ∧ context (snd (run exit_ok cmd st)) = context st.
Proof. unfold run. now destruct (exit_ok cmd). Qed.

Lemma check_types_leaves_environ : leaves_environ (check_types_func exit_ok).
Proof.
  intros args st o st'. cbv [check_types_func bind getattr].
  destruct (context st !! python_version) as [v|]; [|now intros [= _ <-]].
  intros H. pose proof (run_leaves_environ
    ("failprint -t 'Type-checking (" ++ v
     ++ ")' -- mypy --config-file config/mypy.ini " ++ PY_SRC) st) as [He _].
  now rewrite H in He.
Qed.

(** [check_types] and [test] read [context.python_version]: called outside
    the [python] decorator, with no such attribute on the context, they raise
    [AttributeError] before running any command. *)
Theorem versioned_bodies_need_the_decorator (match_ : string) (st : Store) :
  context st !! python_version = None →
  check_types_func exit_ok tt st = (Raised (AttributeError python_version), st)
  ∧ test_func exit_ok match_ st
    = (Raised (AttributeError python_version), st).
Proof.
  intros H. cbv [check_types_func test_func bind getattr]. now rewrite H.
Qed.

(** The loop of the decorator over the body of [test], when the commands of
    the versions at hand succeed. *)
Lemma for_each_test (match_ : string) (env : gmap string string)
    (venv p0 : string) :
  env !! VIRTUAL_ENV = Some venv →
  env !! PATH = Some p0 →
  ∀ (versions : list string) (mc : Machine),
    (∀ v, In v versions → exit_ok (test_command match_ v) = true) →
    environ (store mc) = env →
    ∃ mc',
      for_each versions
        (scoped_invocation bin_dir (observed "test" (test_func exit_ok))
           match_) mc
      = (Returned tt, mc')
      ∧ ran (store mc')
        = (ran (store mc) ++ map (test_command match_) versions)%list
      ∧ environ (store mc') = env
      ∧ (context (store mc) !! python_version = None ∨ versions ≠ [] →
         context (store mc') !! python_version = None).
Proof.
  intros Hvenv Hpath.
  induction versions as [|v rest IH]; intros mc Hok Henv.
  - exists mc. repeat split; [now rewrite app_nil_r | exact Henv |].
    now intros [H|H].
  - set (mc1 :=
           {| store :=
                restored_store p0
                  (set_ran (fun l => (l ++ [test_command match_ v])%list)
                     (scoped_store (bin_dir (resolve_venv venv v)) p0 v
                        (store mc)));
              calls :=
                (calls mc
                 ++ [{| callee := "test";
                        entered := scoped_store (bin_dir (resolve_venv venv v))
                                     p0 v (store mc) |}])%list |}).
    assert (Hturn : scoped_invocation bin_dir
                      (observed "test" (test_func exit_ok)) match_ v mc
                    = (Returned tt, mc1)).
    { rewrite (scoped_invocation_run _ _ _ _ _ venv p0)
        by (rewrite Henv; assumption).
      cbv [observed test_func bind getattr run]. simpl.
      rewrite lookup_insert_eq. fold (test_command match_ v).
      rewrite (Hok v (or_introl eq_refl)). simpl.
      now rewrite lookup_insert_eq. }
    destruct (IH mc1) as (mc' & Hrun & Hran & Hfinal & Hctx).
    { intros w Hw. apply Hok. now right. }
    { unfold mc1, restored_store, scoped_store. simpl. rewrite Henv.
      now apply insert_path_back. }
    exists mc'. repeat split.
    + rewrite for_each_cons, Hturn. exact Hrun.
    + rewrite Hran. unfold mc1. simpl. now rewrite <- app_assoc.
    + exact Hfinal.
    + intros _. apply Hctx. left. unfold mc1, restored_store. simpl.
      apply lookup_delete_eq.
Qed.

(** X13. [test] under its decorator: when the test command of every version
    succeeds, one call runs exactly these commands, one per version in the
    order of the list, each with the [match] expression, and leaves the
    environment as it was and no [python_version] on the context. *)
Theorem test_runs_each_version (match_ : string) (versions : Versions)
    (mc : Machine) (venv p0 : string) :
  falsy versions = false →
  (∀ v, In v (as_list versions) → exit_ok (test_command match_ v) = true) →
  environ (store mc) !! VIRTUAL_ENV = Some venv →
  environ (store mc) !! PATH = Some p0 →
  ∃ mc',
    python tt bin_dir versions (observed "test" (test_func exit_ok)) match_ mc
    = (Returned tt, mc')
    ∧ ran (store mc')
      = (ran (store mc) ++ map (test_command match_) (as_list versions))%list
    ∧ environ (store mc') = environ (store mc)
    ∧ context (store mc') !! python_version = None.
Proof.
  intros Hne Hok Hvenv Hpath.
  destruct (for_each_test match_ (environ (store mc)) venv p0 Hvenv Hpath
              (as_list versions) mc Hok eq_refl)
    as (mc' & Hrun & Hran & Hfinal & Hctx).
  exists mc'. repeat split; try assumption.
  - unfold python. rewrite Hne. unfold wrapped.
    now rewrite (bind_returned _ _ _ _ _ Hrun).
  - apply Hctx. right. destruct versions as [s|[|? ?]]; simpl in *; discriminate.
Qed.

(** X14. [check_code_quality] turns the exit code of the linter into the success
    of the task: in a shell where [true] succeeds and [false] fails, the task
    returns exactly when [failprint] gave code 0, and raises on the command
    [false] otherwise. *)
Theorem check_code_quality_follows_failprint
    (failprint : string → list string → nat) (st : Store) :
  exit_ok "true" = true →
  exit_ok "false" = false →
  let code :=
    failprint "Checking code quality"
      ["flake8"; "--config=config/flake8.ini"; "src"; "tests"; "tasks.py"] in
  (fst (check_code_quality_func exit_ok failprint tt st) = Returned tt
   ↔ code = 0)
  ∧ (code ≠ 0 →
     fst (check_code_quality_func exit_ok failprint tt st)
     = Raised (UnexpectedExit "false")).
Proof.
  intros Htrue Hfalse code. unfold check_code_quality_func, run.
  change (failprint _ _) with code.
  destruct (Nat.eqb_spec code 0) as [->|Hne].
  - rewrite Htrue. simpl. split; [tauto | congruence].
  - rewrite Hfalse. simpl. split; [|reflexivity].
    split; [discriminate | contradiction].
Qed.

End TaskBodies.

(** ** Tasks that run a list of commands *)

Section CommandSequences.

Context (exit_ok : string → bool).

(** [context.run] on the commands of a list, one after the other: the
    commands started are those up to the first failure, whose exception ends
    the sequence; the environment and the context are not touched. *)
Lemma for_each_run (cmds : list string) (st : Store) :
  for_each cmds (run exit_ok) st
  = (sequence_outcome exit_ok cmds,
     {| environ := environ st; context := context st;
        ran := (ran st ++ attempted exit_ok cmds)%list |}).
Proof.
  revert st. induction cmds as [|cmd rest IH]; intros st.
  - simpl. unfold ret. rewrite app_nil_r. now destruct st.
  - rewrite for_each_cons. unfold run at 1. simpl.
    destruct (exit_ok cmd); [|reflexivity].
    rewrite IH. simpl. now rewrite <- app_assoc.
Qed.

Lemma seq_ret {S} (m : SE S unit) (s : S) : (m ;; ret tt) s = m s.
Proof. unfold bind, ret. now destruct (m s) as [[[]|e] s']. Qed.

Lemma release_func_is_sequence (version : string) (st : Store) :
  release_func exit_ok version st
  = for_each (release_commands version) (run exit_ok) st.
Proof.
  unfold release_func, release_commands. cbn [for_each]. unfold bind.
  repeat (match goal with
          | |- context [run exit_ok ?c ?s] =>
              destruct (run exit_ok c s) as [[[]|?] ?]; [|reflexivity]
          end).
  reflexivity.
Qed.

Lemma clean_func_is_sequence (st : Store) :
  clean_func exit_ok tt st = for_each clean_commands (run exit_ok) st.
Proof.
  unfold clean_func, clean_commands. cbn [for_each]. unfold bind.
  repeat (match goal with
          | |- context [run exit_ok ?c ?s] =>
              destruct (run exit_ok c s) as [[[]|?] ?]; [|reflexivity]
          end).
  reflexivity.
Qed.

(** X15. [release] stops at the first command that fails: the commands it has
    started are the commands of the source up to and including that one, in
    order, the failure is raised, and neither [os.environ] nor the context is
    changed. *)
Theorem release_runs_until_failure (version : string) (st : Store) :
  let result := release_func exit_ok version st in
  fst result = sequence_outcome exit_ok (release_commands version)
  ∧ ran (snd result)
    = (ran st ++ attempted exit_ok (release_commands version))%list
  ∧ environ (snd result) = environ st
  ∧ context (snd result) = context st.
Proof.
  cbv zeta. rewrite release_func_is_sequence, for_each_run. now simpl.
Qed.

(** X17. [clean] stops at the first command that fails: the commands it has
    started are the deletions of the source up to and including that one, in
    order, so a deletion that fails keeps the later ones from being run; the
    failure is raised, and neither [os.environ] nor the context is changed. *)
Theorem clean_runs_until_failure (st : Store) :
  let result := clean_func exit_ok tt st in
  fst result = sequence_outcome exit_ok clean_commands
  ∧ ran (snd result) = (ran st ++ attempted exit_ok clean_commands)%list
  ∧ environ (snd result) = environ st
  ∧ context (snd result) = context st.
Proof.
  cbv zeta. rewrite clean_func_is_sequence, for_each_run. now simpl.
Qed.

Lemma attempted_reaches (c : string) (before after : list string) :
  In c (attempted exit_ok (before ++ c :: after)) →
  ¬ In c before →
  Forall (fun cmd => exit_ok cmd = true) before.
Proof.
  induction before as [|x before IH]; intros Hin Hnot; [constructor|].
  simpl in Hin. destruct (exit_ok x) eqn:Hx.
  - constructor; [exact Hx|]. apply IH.
    + destruct Hin as [->|Hin]; [|exact Hin]. exfalso. apply Hnot. now left.
    + intros H. apply Hnot. now right.
  - exfalso. apply Hnot. left. now destruct Hin as [->|[]].
Qed.

(** X16. [release] publishes only what went through: if the publishing command is
    among the commands a call of [release] has started, then the seven
    commands before it (version bump, staging, commit, tag, the two pushes
    and the build) have all succeeded. *)
Theorem release_publishes_after_success (version : string) (st : Store)
    (started : list string) :
  ran (snd (release_func exit_ok version st)) = (ran st ++ started)%list →
  In "failprint -t 'Publishing version' -- poetry publish" started →
  Forall (fun cmd => exit_ok cmd = true) (take 7 (release_commands version)).
Proof.
  intros Hran Hin.
  rewrite release_func_is_sequence, for_each_run in Hran. simpl in Hran.
  apply app_inv_head in Hran. subst started.
  apply (attempted_reaches
           "failprint -t 'Publishing version' -- poetry publish"
           (take 7 (release_commands version))
           ["failprint -t 'Deploying docs' -- poetry run mkdocs gh-deploy"]).
  - exact Hin.
  - cbv [release_commands take]. simpl.
    intros [H|[H|[H|[H|[H|[H|[H|[]]]]]]]]; cbv in H; discriminate H.
Qed.

End CommandSequences.

(** ** Witnesses on a concrete process *)

Lemma python_scopes_path_only_witness :
  ∃ mc' log,
    python tt posix_bin_dir (VList PYTHON_VERSIONS)
      (observed "check_types" (check_types_func (fun _ => true))) tt
      demo_machine
    = (Returned tt, mc')
    ∧ calls mc' = (calls demo_machine ++ log)%list
    ∧ Forall2
        (fun v c =>
           callee c = "check_types"
           ∧ context (entered c) !! python_version = Some v
           ∧ environ (entered c)
             = <[PATH := posix_bin_dir
                           (resolve_venv "/venvs/proj-a1B2-py3.6" v)
                         ++ ":" ++ "/usr/bin:/bin"]>
                 (environ (store demo_machine)))
        (as_list (VList PYTHON_VERSIONS)) log
    ∧ environ (store mc') = environ (store demo_machine).
Proof.
  apply (python_scopes_path_only tt posix_bin_dir "check_types"
           (check_types_func (fun _ => true)) tt (VList PYTHON_VERSIONS)
           demo_machine "/venvs/proj-a1B2-py3.6" "/usr/bin:/bin").
  - reflexivity.
  - apply check_types_well_behaved. reflexivity.
  - apply check_types_leaves_environ.
  - reflexivity.
  - reflexivity.
Defined.

Lemma python_stacked_raises_witness :
  ∃ mc' log first,
    head (as_list (VList ["3.6"; "3.7"])) = Some first
    ∧ python tt posix_bin_dir (VList ["3.6"; "3.7"])
        (python tt posix_bin_dir (VStr "3.8")
           (observed "check_types" (check_types_func (fun _ => true))))
        tt demo_machine
      = (Raised (AttributeError python_version), mc')
    ∧ calls mc' = (calls demo_machine ++ log)%list
    ∧ length log = length (as_list (VStr "3.8"))
    ∧ environ (store mc') !! PATH
      = Some (posix_bin_dir (resolve_venv "/venvs/proj-a1B2-py3.6" first)
              ++ ":" ++ "/usr/bin:/bin").
Proof.
  apply (python_stacked_raises tt posix_bin_dir "check_types"
           (check_types_func (fun _ => true)) tt (VList ["3.6"; "3.7"])
           (VStr "3.8") demo_machine "/venvs/proj-a1B2-py3.6" "/usr/bin:/bin").
  - reflexivity.
  - reflexivity.
  - apply check_types_well_behaved. reflexivity.
  - reflexivity.
  - reflexivity.
Defined.

Lemma versioned_bodies_need_the_decorator_witness :
  check_types_func (fun _ => true) tt demo_store
  = (Raised (AttributeError python_version), demo_store)
  ∧ test_func (fun _ => true) "unit" demo_store
    = (Raised (AttributeError python_version), demo_store).
Proof.
  apply (versioned_bodies_need_the_decorator (fun _ => true) "unit" demo_store).
  reflexivity.
Defined.

Lemma test_runs_each_version_witness :
  ∃ mc',
    python tt posix_bin_dir (VList PYTHON_VERSIONS)
      (observed "test" (test_func (fun _ => true))) "unit" demo_machine
    = (Returned tt, mc')
    ∧ ran (store mc')
      = (ran (store demo_machine)
         ++ map (test_command "unit") (as_list (VList PYTHON_VERSIONS)))%list
    ∧ environ (store mc') = environ (store demo_machine)
    ∧ context (store mc') !! python_version = None.
Proof.
  apply (test_runs_each_version posix_bin_dir (fun _ => true) "unit"
           (VList PYTHON_VERSIONS) demo_machine "/venvs/proj-a1B2-py3.6"
           "/usr/bin:/bin").
  - reflexivity.
  - reflexivity.
  - reflexivity.
  - reflexivity.
Defined.

Lemma check_code_quality_follows_failprint_witness :
  let exit_ok := fun cmd => String.eqb cmd "true" in
  let failprint := fun (_ : string) (_ : list string) => 1 in
  (fst (check_code_quality_func exit_ok failprint tt demo_store) = Returned tt
   ↔ 1 = 0)
  ∧ (1 ≠ 0 →
     fst (check_code_quality_func exit_ok failprint tt demo_store)
     = Raised (UnexpectedExit "false")).
Proof.
  apply (check_code_quality_follows_failprint
           (fun cmd => String.eqb cmd "true") (fun _ _ => 1) demo_store);
    reflexivity.
Defined.

Lemma release_publishes_after_success_witness :
  Forall (fun cmd => (fun _ : string => true) cmd = true)
    (take 7 (release_commands "1.2.0")).
Proof.
  apply (release_publishes_after_success (fun _ => true) "1.2.0" demo_store
           (release_commands "1.2.0")).
  - vm_compute. reflexivity.
  - vm_compute. tauto.
Defined.

(** A release whose commit fails: nothing is tagged, pushed or published. *)
Example release_failed_commit :
  let exit_ok := fun cmd =>
    negb (String.eqb cmd
            "failprint -t 'Committing changes' -- git commit -m 'chore: Prepare release 1.2.0'") in
  ran (snd (release_func exit_ok "1.2.0" demo_store))
  = ["failprint -t 'Bumping version in pyproject.toml' -- poetry version 1.2.0";
     "failprint -t 'Staging files' -- git add pyproject.toml CHANGELOG.md setup.py";
     "failprint -t 'Committing changes' -- git commit -m 'chore: Prepare release 1.2.0'"].
Proof. vm_compute. reflexivity. Qed.
